(** * The Hero UI prompt-guide generator (frontend/create-prompt_HeroUI.js)

    The script reads a catalog of component descriptions from [full.json],
    renders one Markdown block per component after a fixed preamble, and
    writes the result to [heroui-prompt-guide.md].

    The development has three layers, all translated from the script:
    - the renderer over the catalog's data model (records of strings), which
      is what the template literals compute on a catalog of the documented
      shape;
    - the same statements over arbitrary parsed JSON values, with the
      run-time errors JavaScript raises on values of the wrong shape;
    - the whole script as a transformer of the file system and the console.

    Strings are sequences of bytes (the UTF-8 text the script reads and
    writes); every operation the script applies to them is concatenation or
    the replacement of the ASCII character [|]. *)

From Stdlib Require Import ZArith Ascii DecimalString.
From Stdlib Require String.
From stdpp Require Import base option list strings gmap.

(** ** Characters and strings *)

Definition pipe : ascii := "|"%char.
Definition backslash : ascii := "\"%char.
Definition dquote : string := String "034"%char EmptyString.
Definition nl : string := String "010"%char EmptyString.

(** [s.replace(/c/g, newSubstr)] for a pattern that is one literal
    character [c] and a replacement without [$] patterns: every occurrence
    of [c], from left to right, gives way to [newSubstr]. *)
Fixpoint replaceAll (c : ascii) (newSubstr : string) (s : string) : string :=
  match s with
  | EmptyString => EmptyString
  | String a rest =>
      if Ascii.eqb a c then newSubstr +:+ replaceAll c newSubstr rest
      else String a (replaceAll c newSubstr rest)
  end.

(** [type.replace(/\|/g, '\\|')]: the JavaScript literal ['\\|'] is the two
    characters backslash and pipe. *)
Definition escapePipes (type : string) : string :=
  replaceAll pipe "\|" type.

(** [strings.join(sep)] on an array of strings. *)
Definition join (sep : string) (strings : list string) : string :=
  String.concat sep strings.

(** [ToBoolean] on a string: only the empty string is falsy. *)
Definition truthy (s : string) : bool :=
  negb (String.eqb s "").

(** ** Data model

    [full.json] holds [{ components: ComponentRecord[] }]. The literals of
    [default] and [options] are JSON strings: the generated guide shows the
    defaults [`false`] and [`0`], which the template would leave out were
    they a boolean and a number. *)

Record PropertyRecord := {
  prop_name : string;
  prop_type : string;
  prop_default : option string;
  prop_options : option (list string);
  prop_description : string
}.

Record ComponentRecord := {
  component_name : string;
  component_description : string;
  component_import : string;
  component_props : list PropertyRecord;
  component_example : string
}.

Abbreviation Catalog := (list ComponentRecord).

(** ** The renderer on the data model *)

(** [prop.default ? `\`${prop.default}\`` : ''] *)
Definition defaultCell (prop : PropertyRecord) : string :=
  match prop_default prop with
  | Some default => if truthy default then "`" +:+ default +:+ "`" else ""
  | None => ""
  end.

(** [prop.options ? `\`${prop.options.join('`, `')}\`` : '']; an array is
    truthy whatever its length. *)
Definition optionsCell (prop : PropertyRecord) : string :=
  match prop_options prop with
  | Some options => "`" +:+ join "`, `" options +:+ "`"
  | None => ""
  end.

(** The arrow function given to [component.props.map]. *)
Definition renderRow (prop : PropertyRecord) : string :=
  "| `" +:+ prop_name prop +:+ "` | `" +:+ escapePipes (prop_type prop)
  +:+ "` | " +:+ defaultCell prop +:+ " | " +:+ optionsCell prop
  +:+ " | " +:+ prop_description prop +:+ " |".

Definition tableHeader : string :=
  "| Name | Type | Default | Options | Description |" +:+ nl +:+
  "| --- | --- | --- | --- | --- |" +:+ nl.

(** The template literal appended for one component, up to the table. *)
Definition blockHead (component : ComponentRecord) : string :=
  nl +:+
  "## " +:+ component_name component +:+ nl +:+
  nl +:+
  "<details>" +:+ nl +:+
  "<summary>View details for " +:+ component_name component +:+ "</summary>" +:+ nl +:+
  nl +:+
  "**Description:** " +:+ component_description component +:+ nl +:+
  nl +:+
  "**Import:**" +:+ nl +:+
  "```typescript" +:+ nl +:+
  component_import component +:+ nl +:+
  "```" +:+ nl +:+
  nl +:+
  "**Props:**" +:+ nl +:+
  nl.

(** The template literal after the table rows. *)
Definition blockTail (component : ComponentRecord) : string :=
  nl +:+
  nl +:+
  "**Example:**" +:+ nl +:+
  "```typescript" +:+ nl +:+
  component_example component +:+ nl +:+
  "```" +:+ nl +:+
  nl +:+
  "</details>" +:+ nl +:+
  "---" +:+ nl.

Definition tableRows (component : ComponentRecord) : list string :=
  map renderRow (component_props component).

Definition renderBlock (component : ComponentRecord) : string :=
  blockHead component +:+ tableHeader +:+ join nl (tableRows component)
  +:+ blockTail component.

(** The initial value of [mdxContent], line by line. *)
Definition preambleLines : list string :=
  [
    "---";
    "title: 'Hero UI Component Prompt Guide'";
    "description: 'A guide for AI agents on how to use Hero UI components.'";
    "---";
    "";
    "# Hero UI Component Prompt Guide";
    "";
    "You are a senior frontend engineer tasked with building a web page using the Hero UI component library. Your primary goal is to create beautiful, responsive, and maintainable user interfaces.";
    "";
    "## Your Workflow";
    "";
    "1.  **Understand the Goal:** First, fully understand the user's request.";
    "2.  **Plan the Layout:** Before writing any code, plan the overall layout of the page. Think about the structure, hierarchy, and how different sections will fit together. Follow the Design Strategy rules below.";
    "3.  **Component Selection:** Based on your layout plan, select the most appropriate Hero UI components from the documentation below. **You must prioritize using Hero UI components for all parts of the page wherever possible.**";
    "4.  **Prop Assignment:** For each component, decide which props are necessary to achieve the desired functionality and appearance. You have all the documentation you need; do not ask the user for props. Make educated decisions based on the context.";
    "5.  **Code Generation:** Write the complete React code for the page, importing all necessary components from `@heroui/react`.";
    "";
    "## Design Strategy";
    "";
    "### Responsive Design: Mobile-First";
    "You **must** design mobile-first. Start with the base styles for mobile screens and then use Tailwind's responsive breakpoints (`sm:`, `md:`, `lg:`, `xl:`) to adapt the layout for larger screens.";
    "";
    "### Layout: Flexbox & Grid";
    "You **must** always think in terms of Flexbox and Grid for layouts.";
    "*   **Grid:** Use for major, large-scale page layouts and structures.";
    "*   **Flexbox:** Use for smaller component arrangements and alignments within a container.";
    "";
    "## Styling Rules";
    "";
    "*   **Always Use Semantic Colors:** Semantic colors are available for most components (via the `color` prop) and utility classes (`bg-primary`, `text-danger-500`, etc.). You **must** use them at all times to ensure theme consistency.";
    "*   **Prioritize the `color` Prop:** When a component supports a `color` prop, it's the preferred way to apply semantic colors.";
    "*   **Use Semantic Color Classes:** When customizing with `className` or `classNames`, use theme-aware semantic color utilities.";
    "*   **No Absolute Colors:** NEVER use absolute or specific color classes (e.g., `bg-red-500`, `text-green-600`). This breaks the theme and creates inconsistent UI.";
    "";
    "---";
    "";
    "## Color System Deep Dive";
    "";
    "To effectively use Hero UI's color system, it's important to understand its structure. The colors are defined by the following TypeScript types:";
    "";
    "```typescript";
    "type ColorScale = {";
    "  50: string;";
    "  100: string;";
    "  200: string;";
    "  300: string;";
    "  400: string;";
    "  500: string;";
    "  600: string;";
    "  700: string;";
    "  800: string;";
    "  900: string;";
    "  foreground: string; // contrast color";
    "  DEFAULT: string;";
    "};";
    "";
    "type BaseColors = {";
    "  background: ColorScale; // the page background color";
    "  foreground: ColorScale; // the page text color";
    "  divider: ColorScale; // used for divider and single line border";
    "  overlay: ColorScale; // used for modal, popover, etc.";
    "  focus: ColorScale; // used for focus state outline";
    "  content1: ColorScale; // used for card, modal, popover, etc.";
    "  content2: ColorScale;";
    "  content3: ColorScale;";
    "  content4: ColorScale;";
    "};";
    "";
    "// brand colors";
    "type ThemeColors = BaseColors & {";
    "  default: ColorScale;";
    "  primary: ColorScale;";
    "  secondary: ColorScale;";
    "  success: ColorScale;";
    "  warning: ColorScale;";
    "  danger: ColorScale;";
    "};";
    "```";
    "";
    "### When to Use Which Colors";
    "";
    "*   **Base Colors (`background`, `foreground`, `content1-4`, etc.):** Use these for general layout and structural elements. For example, `bg-background` for the page background, `text-foreground` for body text, and `bg-content1` for card backgrounds.";
    "*   **Theme Colors (`primary`, `secondary`, `success`, etc.):** Use these for interactive elements, branding, and to convey status. For example, `primary` for main action buttons, `danger` for error messages, and `success` for confirmation indicators.";
    "";
    "---";
    "";
    "## Colors via `color` Prop";
    "";
    "Hero UI uses a semantic color system. For components that support it, the easiest way to apply color is with the `color` prop.";
    "";
    "### Available Colors";
    "";
    "*   `default`";
    "*   `primary`";
    "*   `secondary`";
    "*   `success`";
    "*   `warning`";
    "*   `danger`";
    "";
    "### How to Use";
    "";
    "```typescript";
    "<Button color=" +:+ dquote +:+ "primary" +:+ dquote +:+ ">Primary Button</Button>";
    "<Chip color=" +:+ dquote +:+ "success" +:+ dquote +:+ ">Success Chip</Chip>";
    "<Spinner color=" +:+ dquote +:+ "danger" +:+ dquote +:+ " />";
    "```";
    "";
    "---";
    "";
    "## Colors via `className`";
    "";
    "For more granular control, you can use semantic color utility classes directly. These classes are theme-aware and will adapt to light/dark mode.";
    "";
    "### Text Color";
    "- Apply primary text: `<p className=" +:+ dquote +:+ "text-primary" +:+ dquote +:+ ">...</p>`";
    "- Shade variant: `<p className=" +:+ dquote +:+ "text-primary-600" +:+ dquote +:+ ">...</p>`";
    "";
    "### Background Color";
    "- Solid background: `<div className=" +:+ dquote +:+ "bg-success" +:+ dquote +:+ ">...</div>`";
    "- With shade: `<div className=" +:+ dquote +:+ "bg-success-100" +:+ dquote +:+ ">...</div>`";
    "";
    "### Border Color";
    "- Semantic border: `<div className=" +:+ dquote +:+ "border border-warning" +:+ dquote +:+ ">...</div>`";
    "- Shade border: `<div className=" +:+ dquote +:+ "border border-warning-400" +:+ dquote +:+ ">...</div>`";
    "";
    "### Hover/Focus States";
    "- Hover background: `<button className=" +:+ dquote +:+ "hover:bg-secondary-200" +:+ dquote +:+ ">...</button>`";
    "- Focus ring: `<input className=" +:+ dquote +:+ "focus:outline-none focus:ring-2 focus:ring-primary-500" +:+ dquote +:+ " />`";
    "";
    "### Components & Slots";
    "- Button with color prop: `<Button color=" +:+ dquote +:+ "primary" +:+ dquote +:+ ">Click</Button>`";
    "- Slot override: `<CircularProgress classNames={{ indicator: 'stroke-danger-500' }} />`";
    "";
    "### Theme-Scoped Styling";
    "- Apply styles based on theme: `<div className=" +:+ dquote +:+ "dark:bg-default-800" +:+ dquote +:+ ">...</div>`";
    "";
    "**Note:** Semantic colors are available as utilities like `text-*`, `bg-*`, `border-*` with shades 50â€“900. You can also use CSS variables like `var(--heroui-primary-500)`.";
    "";
    "---";
    "";
    "## Overriding Styles";
    "";
    "You can override the default styles of a component by passing your own class names to the `className` prop, or to the `classNames` prop for components with slots.";
    "";
    "### Overriding a component with `className`";
    "";
    "For components without slots, you can use the `className` prop to apply custom styles.";
    "";
    "```typescript";
    "import {Button} from " +:+ dquote +:+ "@heroui/react" +:+ dquote +:+ ";";
    "";
    "export default function App() {";
    "  return (";
    "    <Button";
    "      disableRipple";
    "      className=" +:+ dquote +:+ "relative overflow-visible rounded-full hover:-translate-y-1 px-12 shadow-sm bg-background/30 after:content-[''] after:absolute after:rounded-full after:inset-0 after:bg-background/40 after:z-[-1] after:transition after:duration-500! hover:after:scale-150 hover:after:opacity-0" +:+ dquote +:+ "";
    "      size=" +:+ dquote +:+ "lg" +:+ dquote +:+ "";
    "    >";
    "      Press me";
    "    </Button>";
    "  );";
    "}";
    "```";
    "";
    "### What is a Slot?";
    "";
    "A slot is a part of a component that can be styled separately using the `classNames` prop. For example, the `CircularProgress` component has slots like `track`, `indicator`, and `value` that can each be styled independently.";
    "";
    "You will find a `Slots` section in the documentation of each component that has slots.";
    "";
    "### How to Use Slots";
    "";
    "To style a specific slot, pass an object to the `classNames` prop where the key is the name of the slot and the value is a string of class names.";
    "";
    "```typescript";
    "import {CircularProgress, Card, CardBody} from " +:+ dquote +:+ "@heroui/react" +:+ dquote +:+ ";";
    "";
    "export default function App() {";
    "  return (";
    "    <Card className=" +:+ dquote +:+ "w-[240px] h-[240px] bg-linear-to-br from-violet-500 to-fuchsia-500" +:+ dquote +:+ ">";
    "      <CardBody className=" +:+ dquote +:+ "justify-center items-center py-0" +:+ dquote +:+ ">";
    "        <CircularProgress";
    "          classNames={{";
    "            svg: " +:+ dquote +:+ "w-36 h-36 drop-shadow-md" +:+ dquote +:+ ",";
    "            indicator: " +:+ dquote +:+ "stroke-white" +:+ dquote +:+ ",";
    "            track: " +:+ dquote +:+ "stroke-white/10" +:+ dquote +:+ ",";
    "            value: " +:+ dquote +:+ "text-3xl font-semibold text-white" +:+ dquote +:+ ",";
    "          }}";
    "          value={70}";
    "          strokeWidth={4}";
    "          showValueLabel={true}";
    "        />";
    "      </CardBody>";
    "    </Card>";
    "  );";
    "}";
    "```";
    "";
    "---";
    "";
    ""
  ].

Definition preamble : string := join nl preambleLines.

(** [data.components.forEach(component => { mdxContent += ... })] *)
Definition render (catalog : Catalog) : string :=
  fold_left (fun mdxContent component => mdxContent +:+ renderBlock component)
            catalog preamble.

(** ** Reading a rendered row back

    A [|] is escaped when the character before it is a backslash; a row is
    cut at every other [|]. [escaped] tells whether the character before
    the current one was a backslash. *)
Definition pushChar (c : ascii) (cells : list string) : list string :=
  match cells with
  | cell :: others => String c cell :: others
  | [] => [String c EmptyString]
  end.

Fixpoint splitUnescaped (escaped : bool) (row : string) : list string :=
  match row with
  | EmptyString => [EmptyString]
  | String c rest =>
      if Ascii.eqb c pipe && negb escaped
      then EmptyString :: splitUnescaped false rest
      else pushChar c (splitUnescaped (Ascii.eqb c backslash) rest)
  end.

(** The columns of a row: what lies between its leading and its trailing
    delimiter. *)
Definition logicalColumns (row : string) : list string :=
  removelast (tail (splitUnescaped false row)).

(** [s] holds no [|] that would cut a row. *)
Fixpoint noCut (escaped : bool) (s : string) : bool :=
  match s with
  | EmptyString => true
  | String c rest =>
      negb (Ascii.eqb c pipe && negb escaped)
      && noCut (Ascii.eqb c backslash) rest
  end.

Definition noUnescapedPipe (s : string) : bool := noCut false s.

(** The number of places at which [splitUnescaped] cuts [s]. *)
Fixpoint countCuts (escaped : bool) (s : string) : nat :=
  match s with
  | EmptyString => 0
  | String c rest =>
      (if Ascii.eqb c pipe && negb escaped then 1 else 0)
      + countCuts (Ascii.eqb c backslash) rest
  end.

Fixpoint countPipes (s : string) : nat :=
  match s with
  | EmptyString => 0
  | String c rest => (if Ascii.eqb c pipe then 1 else 0) + countPipes rest
  end.

(** The escaping as the specification words it: each [|] of the type
    becomes the two characters [\|], every other character stays. *)
Definition escapeChar (c : ascii) : list ascii :=
  if Ascii.eqb c pipe then [backslash; pipe] else [c].

Definition specEscape (type : string) : string :=
  String.string_of_list_ascii
    (flat_map escapeChar (String.list_ascii_of_string type)).

(** A value in inline-code markers. *)
Definition code (literal : string) : string := "`" +:+ literal +:+ "`".

(** The five cells of a row, as the table shows them. *)
Definition rowCells (prop : PropertyRecord) : list string :=
  [ code (prop_name prop); code (escapePipes (prop_type prop));
    defaultCell prop; optionsCell prop; prop_description prop ].

Definition padCell (cell : string) : string := " " +:+ cell +:+ " ".

(** No field other than the type holds a [|] that would cut the row. *)
Definition otherFieldsClean (prop : PropertyRecord) : bool :=
  noUnescapedPipe (prop_name prop)
  && from_option noUnescapedPipe true (prop_default prop)
  && from_option (forallb noUnescapedPipe) true (prop_options prop)
  && noUnescapedPipe (prop_description prop).

(** ** Sample records *)

(** The property and the component of the specification's example. *)
Definition badgeColor : PropertyRecord :=
  {| prop_name := "color";
     prop_type := "default | primary";
     prop_default := Some "default";
     prop_options := Some ["default"; "primary"];
     prop_description := "d" |}.

Definition badge : ComponentRecord :=
  {| component_name := "Badge";
     component_description := "x";
     component_import := "import {Badge}...";
     component_props := [badgeColor];
     component_example := "<Badge/>" |}.

(** A property whose description holds a [|] of its own. *)
Definition pipedDescription : PropertyRecord :=
  {| prop_name := "value";
     prop_type := "number | number[]";
     prop_default := None;
     prop_options := None;
     prop_description := "The value (controlled | uncontrolled)." |}.

(** A property whose default is the empty string. *)
Definition emptyDefault : PropertyRecord :=
  {| prop_name := "placeholder";
     prop_type := "string";
     prop_default := Some "";
     prop_options := None;
     prop_description := "The placeholder text." |}.

(** A property with neither default nor options, one with an empty list of
    options, and a component without properties. *)
Definition children : PropertyRecord :=
  {| prop_name := "children";
     prop_type := "ReactNode[]";
     prop_default := None;
     prop_options := None;
     prop_description := "The accordion items." |}.

Definition noOptions : PropertyRecord :=
  {| prop_name := "variant";
     prop_type := "string";
     prop_default := None;
     prop_options := Some [];
     prop_description := "The appearance style." |}.

Definition spacer : ComponentRecord :=
  {| component_name := "Spacer";
     component_description := "Adds space between elements.";
     component_import := "import {Spacer} from '@heroui/react';";
     component_props := [];
     component_example := "<Spacer/>" |}.

(** ** The script on parsed JSON *)

Module Js.

(** What [JSON.parse] returns, and [undefined] for a property that is not
    there. A number is kept as what the script can observe of it: the text
    [ToString] writes for it ([100], [0.5], [1e+21]) and whether it is
    truthy (neither zero nor NaN). An object is the list of its own
    properties, each key once. *)
#[warnings="-register-all"]
Inductive value : Type :=
| Undefined
| Null
| Bool (b : bool)
| Num (text : string) (nonzero : bool)
| Str (s : string)
| Arr (elems : list value)
| Obj (fields : list (string * value)).

Inductive error : Type :=
| TypeError
| RangeError
| SyntaxError
| ENOENT (path : string).

(** The errors of the language itself, as against those of the host. *)
Definition languageError (e : error) : Prop :=
  e = TypeError \/ e = RangeError.

Inductive completion (A : Type) : Type :=
| Normal (a : A)
| Throw (e : error).
Global Arguments Normal {A} a.
Global Arguments Throw {A} e.

#[global] Instance completion_ret : MRet completion := fun A a => Normal a.
#[global] Instance completion_bind : MBind completion :=
  fun A B f m => match m with Normal a => f a | Throw e => Throw e end.

Definition ToBoolean (v : value) : bool :=
  match v with
  | Undefined | Null => false
  | Bool b => b
  | Num _ nonzero => nonzero
  | Str s => truthy s
  | Arr _ | Obj _ => true
  end.

Fixpoint hasOwnProperty (key : string) (fields : list (string * value)) : bool :=
  match fields with
  | [] => false
  | (k, _) :: rest => String.eqb k key || hasOwnProperty key rest
  end.

(** [Array.prototype.join] on the strings of the elements, which it asks
    for from left to right. *)
Definition joinWith (elemToString : value -> completion string) (sep : string)
  : list value -> completion string :=
  fix go elems :=
    match elems with
    | [] => Normal EmptyString
    | [x] => elemToString x
    | x :: rest =>
        match elemToString x with
        | Normal first =>
            match go rest with
            | Normal others => Normal (first +:+ sep +:+ others)
            | Throw e => Throw e
            end
        | Throw e => Throw e
        end
    end.

(** [ToString]. An array is joined by commas, its elements [undefined] and
    [null] giving the empty string. An object gives [[object Object]]
    through [Object.prototype.toString], unless it has a property
    [toString] of its own: a JSON value is not callable, so no method turns
    the object into a primitive and the conversion throws a type error.
    [stack] is the depth of calls the engine still allows: an array nested
    deeper than that ends the conversion with a range error. *)
Fixpoint ToString (stack : nat) (v : value) {struct v} : completion string :=
  match v with
  | Undefined => Normal "undefined"
  | Null => Normal "null"
  | Bool true => Normal "true"
  | Bool false => Normal "false"
  | Num text _ => Normal text
  | Str s => Normal s
  | Arr elems =>
      match stack with
      | 0 => Throw RangeError
      | S deeper =>
          joinWith (fun x => match x with
                             | Undefined | Null => Normal EmptyString
                             | _ => ToString deeper x
                             end) "," elems
      end
  | Obj fields =>
      if hasOwnProperty "toString" fields then Throw TypeError
      else Normal "[object Object]"
  end.

Definition elemToString (stack : nat) (x : value) : completion string :=
  match x with
  | Undefined | Null => Normal EmptyString
  | _ => ToString stack x
  end.

Fixpoint lookupField (key : string) (fields : list (string * value)) : value :=
  match fields with
  | [] => Undefined
  | (k, v) :: rest => if String.eqb k key then v else lookupField key rest
  end.

(** [v.key] for the property names the script reads ([components], [name],
    [description], [import], [props], [example], [type], [default],
    [options]); no built-in prototype defines any of them. *)
Definition GetV (v : value) (key : string) : completion value :=
  match v with
  | Undefined | Null => Throw TypeError
  | Obj fields => Normal (lookupField key fields)
  | _ => Normal Undefined
  end.

(** [v.replace(/\|/g, '\\|')]: only a string has a [replace] method. *)
Definition replace (v : value) : completion string :=
  match v with
  | Str s => Normal (escapePipes s)
  | _ => Throw TypeError
  end.

(** [v.join(sep)]: only an array has a [join] method. *)
Definition Array_join (stack : nat) (v : value) (sep : string)
  : completion string :=
  match v with
  | Arr elems => joinWith (elemToString stack) sep elems
  | _ => Throw TypeError
  end.

(** [v.map(callback)], the callback returning a string. *)
Definition Array_map (v : value) (callback : value -> completion string)
  : completion (list string) :=
  match v with
  | Arr elems => mapM callback elems
  | _ => Throw TypeError
  end.

(** [v.forEach(callback)], the callback updating [mdxContent]. *)
Definition Array_forEach (v : value)
    (callback : string -> value -> completion string) (mdxContent : string)
  : completion string :=
  match v with
  | Arr elems =>
      fold_left (fun acc x => content ← acc; callback content x)
                elems (Normal mdxContent)
  | _ => Throw TypeError
  end.

(** [prop.default ? `\`${prop.default}\`` : ''] *)
Definition defaultCell (stack : nat) (default : value) : completion string :=
  if ToBoolean default
  then defaultText ← ToString stack default;
       mret ("`" +:+ defaultText +:+ "`")
  else mret "".

(** [prop.options ? `\`${prop.options.join('`, `')}\`` : ''] *)
Definition optionsCell (stack : nat) (options : value) : completion string :=
  if ToBoolean options
  then joined ← Array_join stack options "`, `";
       mret ("`" +:+ joined +:+ "`")
  else mret "".

(** The row template. A template literal evaluates its substitutions from
    left to right and turns each into a string before it goes on. *)
Definition row (stack : nat) (prop : value) : completion string :=
  name ← GetV prop "name";
  nameText ← ToString stack name;
  type ← GetV prop "type";
  escaped ← replace type;
  default ← GetV prop "default";
  defaultText ← defaultCell stack default;
  options ← GetV prop "options";
  optionsText ← optionsCell stack options;
  description ← GetV prop "description";
  descriptionText ← ToString stack description;
  mret ("| `" +:+ nameText +:+ "` | `" +:+ escaped +:+ "` | "
        +:+ defaultText +:+ " | " +:+ optionsText +:+ " | "
        +:+ descriptionText +:+ " |").

Definition block (stack : nat) (component : value) : completion string :=
  name ← GetV component "name";
  nameText ← ToString stack name;
  summaryName ← GetV component "name";
  summaryText ← ToString stack summaryName;
  description ← GetV component "description";
  descriptionText ← ToString stack description;
  import ← GetV component "import";
  importText ← ToString stack import;
  props ← GetV component "props";
  rows ← Array_map props (row stack);
  example ← GetV component "example";
  exampleText ← ToString stack example;
  mret (nl +:+
        "## " +:+ nameText +:+ nl +:+
        nl +:+
        "<details>" +:+ nl +:+
        "<summary>View details for " +:+ summaryText +:+ "</summary>" +:+ nl +:+
        nl +:+
        "**Description:** " +:+ descriptionText +:+ nl +:+
        nl +:+
        "**Import:**" +:+ nl +:+
        "```typescript" +:+ nl +:+
        importText +:+ nl +:+
        "```" +:+ nl +:+
        nl +:+
        "**Props:**" +:+ nl +:+
        nl +:+
        tableHeader +:+
        join nl rows +:+ nl +:+
        nl +:+
        "**Example:**" +:+ nl +:+
        "```typescript" +:+ nl +:+
        exampleText +:+ nl +:+
        "```" +:+ nl +:+
        nl +:+
        "</details>" +:+ nl +:+
        "---" +:+ nl).

(** From [let mdxContent = ...] to the end of the [forEach]. *)
Definition generate (stack : nat) (data : value) : completion string :=
  components ← GetV data "components";
  Array_forEach components
    (fun mdxContent component =>
       rendered ← block stack component; mret (mdxContent +:+ rendered))
    preamble.

(** *** The data model as JSON *)

Definition encodeProperty (prop : PropertyRecord) : value :=
  Obj ([("name", Str (prop_name prop)); ("type", Str (prop_type prop))]
       ++ match prop_default prop with
          | Some default => [("default", Str default)]
          | None => []
          end
       ++ match prop_options prop with
          | Some options => [("options", Arr (map Str options))]
          | None => []
          end
       ++ [("description", Str (prop_description prop))]).

Definition encodeComponent (component : ComponentRecord) : value :=
  Obj [("name", Str (component_name component));
       ("description", Str (component_description component));
       ("import", Str (component_import component));
       ("props", Arr (map encodeProperty (component_props component)));
       ("example", Str (component_example component))].

Definition encodeCatalog (catalog : Catalog) : value :=
  Obj [("components", Arr (map encodeComponent catalog))].

(** *** Catalogs of the shape of the data model

    Text fields that are strings, [props] and [options] that are arrays,
    defaults and option values that are literals: strings, booleans and
    numbers (the text of a number is never empty). *)

Definition isStr (v : value) : bool :=
  match v with Str _ => true | _ => false end.

Definition isLiteral (v : value) : bool :=
  match v with
  | Str _ | Bool _ => true
  | Num text _ => negb (String.eqb text "")
  | _ => false
  end.

Definition validProperty (prop : value) : bool :=
  match prop with
  | Obj fields =>
      isStr (lookupField "name" fields)
      && isStr (lookupField "type" fields)
      && isStr (lookupField "description" fields)
      && match lookupField "default" fields with
         | Undefined => true
         | default => isLiteral default
         end
      && match lookupField "options" fields with
         | Undefined => true
         | Arr options => forallb isLiteral options
         | _ => false
         end
  | _ => false
  end.

Definition validComponent (component : value) : bool :=
  match component with
  | Obj fields =>
      isStr (lookupField "name" fields)
      && isStr (lookupField "description" fields)
      && isStr (lookupField "import" fields)
      && isStr (lookupField "example" fields)
      && match lookupField "props" fields with
         | Arr props => forallb validProperty props
         | _ => false
         end
  | _ => false
  end.

Definition validCatalog (data : value) : bool :=
  match data with
  | Obj fields =>
      match lookupField "components" fields with
      | Arr components => forallb validComponent components
      | _ => false
      end
  | _ => false
  end.

(** *** Catalogs that have the named fields

    Every component has [name], [description], [import], [props] and
    [example], every property has [name], [type] and [description];
    nothing is asked of what the fields hold, but that [props] is a
    sequence. *)

Definition present (key : string) (fields : list (string * value)) : bool :=
  match lookupField key fields with
  | Undefined => false
  | _ => true
  end.

Definition hasPropertyFields (prop : value) : bool :=
  match prop with
  | Obj fields =>
      present "name" fields && present "type" fields
      && present "description" fields
  | _ => false
  end.

Definition hasComponentFields (component : value) : bool :=
  match component with
  | Obj fields =>
      present "name" fields && present "description" fields
      && present "import" fields && present "example" fields
      && match lookupField "props" fields with
         | Arr props => forallb hasPropertyFields props
         | _ => false
         end
  | _ => false
  end.

Definition hasNamedFields (data : value) : bool :=
  match data with
  | Obj fields =>
      match lookupField "components" fields with
      | Arr components => forallb hasComponentFields components
      | _ => false
      end
  | _ => false
  end.

(** *** Values that stand for the same catalog

    Two property objects with the same five fields, two component objects
    with the same four text fields and the same properties, two values
    with the same components: the order of the keys and every other key
    may differ. *)

Definition sameFields (keys : list string) (v1 v2 : value) : Prop :=
  Forall (fun key => GetV v1 key = GetV v2 key) keys.

Definition sameArray (same : value -> value -> Prop) (r1 r2 : completion value)
  : Prop :=
  match r1, r2 with
  | Normal (Arr elems1), Normal (Arr elems2) => Forall2 same elems1 elems2
  | Normal (Arr _), _ | _, Normal (Arr _) => False
  | _, _ => r1 = r2
  end.

Definition sameProperty (prop1 prop2 : value) : Prop :=
  sameFields ["name"; "type"; "default"; "options"; "description"] prop1 prop2.

Definition sameComponent (component1 component2 : value) : Prop :=
  sameFields ["name"; "description"; "import"; "example"] component1 component2
  /\ sameArray sameProperty (GetV component1 "props") (GetV component2 "props").

Definition sameCatalog (data1 data2 : value) : Prop :=
  sameArray sameComponent (GetV data1 "components") (GetV data2 "components").

(** *** The script and its world

    The world is the files the script names, each under the path the
    script uses for it, and the lines of the console. It covers the runs
    in which the host lets the script read and write these files. *)

Record world := {
  files : gmap string string;
  console : list string
}.

Section Script.

(** [JSON.parse] is the host's; the script only needs its result. *)
Variable JSON_parse : string -> completion value.

Definition readFileSync (path : string) (w : world) : completion string :=
  match files w !! path with
  | Some text => Normal text
  | None => Throw (ENOENT path)
  end.

Definition writeFileSync (path text : string) (w : world) : world :=
  {| files := <[path := text]> (files w); console := console w |}.

Definition console_log (line : string) (w : world) : world :=
  {| files := files w; console := console w ++ [line] |}.

Definition script (stack : nat) (w : world) : completion world :=
  text ← readFileSync "full.json" w;
  data ← JSON_parse text;
  mdxContent ← generate stack data;
  mret (console_log "Successfully created heroui-prompt-guide.md"
          (writeFileSync "heroui-prompt-guide.md" mdxContent w)).

End Script.

End Js.

(** ** A sample run *)

Definition emptyCatalogText : string :=
  "{" +:+ dquote +:+ "components" +:+ dquote +:+ ":[]}".

(** A stand-in for [JSON.parse] that knows the text of the empty catalog
    and rejects every other text. *)
Definition parseEmptyCatalog (text : string) : Js.completion Js.value :=
  if String.eqb text emptyCatalogText
  then Js.Normal (Js.encodeCatalog [])
  else Js.Throw Js.SyntaxError.

Definition freshWorld : Js.world :=
  {| Js.files := {["full.json" := emptyCatalogText]}; Js.console := [] |}.

(** The world after one run from [freshWorld]. *)
Definition worldAfterRun : Js.world :=
  Js.console_log "Successfully created heroui-prompt-guide.md"
    (Js.writeFileSync "heroui-prompt-guide.md" preamble freshWorld).


(** ** Reading the escaping back

    What a Markdown reader makes of a cell: the two characters [\|] stand
    for a [|]. *)
Fixpoint unescapePipes (s : string) : string :=
  match s with
  | EmptyString => EmptyString
  | String c rest =>
      match rest with
      | String c' rest' =>
          if Ascii.eqb c backslash && Ascii.eqb c' pipe
          then String pipe (unescapePipes rest')
          else String c (unescapePipes rest)
      | EmptyString => String c EmptyString
      end
  end.

(** The cuts the fields of a record add to its row: the unescaped [|] of
    the name, of the default when it is shown, of the options and of the
    description. *)
Definition fieldCuts (prop : PropertyRecord) : nat :=
  countCuts false (prop_name prop)
  + from_option (countCuts false) 0 (prop_default prop)
  + from_option (fun options => sum_list (map (countCuts false) options)) 0
                (prop_options prop)
  + countCuts false (prop_description prop).

(** ** The lines of a table *)

Definition newline : ascii := "010"%char.

(** [text.split('\n')] *)
Fixpoint splitLines (text : string) : list string :=
  match text with
  | EmptyString => [EmptyString]
  | String c rest =>
      if Ascii.eqb c newline then EmptyString :: splitLines rest
      else pushChar c (splitLines rest)
  end.

Fixpoint noNewline (s : string) : bool :=
  match s with
  | EmptyString => true
  | String c rest => negb (Ascii.eqb c newline) && noNewline rest
  end.

(** No field of the record holds a line break. *)
Definition fieldsOneLine (prop : PropertyRecord) : bool :=
  noNewline (prop_name prop)
  && noNewline (prop_type prop)
  && from_option noNewline true (prop_default prop)
  && from_option (forallb noNewline) true (prop_options prop)
  && noNewline (prop_description prop).

(** The table of a block: the header, the delimiter row and the rows. *)
Definition renderTable (component : ComponentRecord) : string :=
  tableHeader +:+ join nl (tableRows component).


(** A property whose fields hold [|] of their own, and a stale output
    file. *)
Definition pipedFields : PropertyRecord :=
  {| prop_name := "a|b";
     prop_type := "x | y";
     prop_default := Some "c|d";
     prop_options := Some ["c|d"; "e"; "f|g|h"];
     prop_description := "escaped \| and not | escaped" |}.

Definition staleWorld : Js.world :=
  Js.writeFileSync "heroui-prompt-guide.md" "an older guide" freshWorld.

(** ** The cells as the specification words them

    The default in inline-code markers unless it is absent or empty; the
    options each in inline-code markers, separated by a comma and a space,
    an empty list of options giving the two markers alone. *)
Definition specDefaultCell (default : option string) : string :=
  match default with
  | Some (String c rest) => "`" +:+ String c rest +:+ "`"
  | _ => EmptyString
  end.

Fixpoint specOptionsList (options : list string) : string :=
  match options with
  | [] => EmptyString
  | [option] => "`" +:+ option +:+ "`"
  | option :: rest => "`" +:+ option +:+ "`, " +:+ specOptionsList rest
  end.

Definition specOptionsCell (options : option (list string)) : string :=
  match options with
  | None => EmptyString
  | Some [] => "``"
  | Some options => specOptionsList options
  end.

(** ** The values the script can render

    [printable] tells whether [ToString] completes: an object must have no
    [toString] of its own, an array must not be nested deeper than the
    engine allows. The script can render a property that is an object with
    a printable name and description, a string for its [type], a default
    that is falsy or printable and options that are falsy or an array of
    printable values; a component that is an object with printable text
    fields and an array of such properties; a value whose [components] is
    an array of such components. *)
Fixpoint printable (stack : nat) (v : Js.value) {struct v} : bool :=
  match v with
  | Js.Arr elems =>
      match stack with
      | 0 => false
      | S deeper =>
          forallb (fun x => match x with
                            | Js.Undefined | Js.Null => true
                            | _ => printable deeper x
                            end) elems
      end
  | Js.Obj fields => negb (Js.hasOwnProperty "toString" fields)
  | _ => true
  end.

Definition printableElem (stack : nat) (x : Js.value) : bool :=
  match x with
  | Js.Undefined | Js.Null => true
  | _ => printable stack x
  end.

(** [m] completes when [ok] is true and throws when it is false. *)
Definition completesWhen {A : Type} (ok : bool) (m : Js.completion A) : Prop :=
  if ok then exists a, m = Js.Normal a else exists e, m = Js.Throw e.

Definition renderableProperty (stack : nat) (prop : Js.value) : bool :=
  match prop with
  | Js.Obj fields =>
      printable stack (Js.lookupField "name" fields)
      && Js.isStr (Js.lookupField "type" fields)
      && (negb (Js.ToBoolean (Js.lookupField "default" fields))
          || printable stack (Js.lookupField "default" fields))
      && (negb (Js.ToBoolean (Js.lookupField "options" fields))
          || match Js.lookupField "options" fields with
             | Js.Arr values => forallb (printableElem stack) values
             | _ => false
             end)
      && printable stack (Js.lookupField "description" fields)
  | _ => false
  end.

Definition renderableComponent (stack : nat) (component : Js.value) : bool :=
  match component with
  | Js.Obj fields =>
      printable stack (Js.lookupField "name" fields)
      && printable stack (Js.lookupField "description" fields)
      && printable stack (Js.lookupField "import" fields)
      && match Js.lookupField "props" fields with
         | Js.Arr props => forallb (renderableProperty stack) props
         | _ => false
         end
      && printable stack (Js.lookupField "example" fields)
  | _ => false
  end.

Definition renderable (stack : nat) (data : Js.value) : bool :=
  match data with
  | Js.Obj fields =>
      match Js.lookupField "components" fields with
      | Js.Arr components => forallb (renderableComponent stack) components
      | _ => false
      end
  | _ => false
  end.

(** ** From parsed JSON to the data model

    The record a property object stands for: each text field by its
    string, a default that is shown by its text, options by the texts of
    their values. *)
Definition literalText (v : Js.value) : string :=
  match v with
  | Js.Str s => s
  | Js.Num text _ => text
  | Js.Bool true => "true"
  | Js.Bool false => "false"
  | _ => EmptyString
  end.

Definition field (object : Js.value) (key : string) : Js.value :=
  match object with
  | Js.Obj fields => Js.lookupField key fields
  | _ => Js.Undefined
  end.

Definition decodeProperty (prop : Js.value) : PropertyRecord :=
  {| prop_name := literalText (field prop "name");
     prop_type := literalText (field prop "type");
     prop_default :=
       if Js.ToBoolean (field prop "default")
       then Some (literalText (field prop "default"))
       else None;
     prop_options :=
       match field prop "options" with
       | Js.Arr values => Some (map literalText values)
       | _ => None
       end;
     prop_description := literalText (field prop "description") |}.

Definition decodeComponent (component : Js.value) : ComponentRecord :=
  {| component_name := literalText (field component "name");
     component_description := literalText (field component "description");
     component_import := literalText (field component "import");
     component_props :=
       match field component "props" with
       | Js.Arr props => map decodeProperty props
       | _ => []
       end;
     component_example := literalText (field component "example") |}.

Definition decodeCatalog (data : Js.value) : Catalog :=
  match field data "components" with
  | Js.Arr components => map decodeComponent components
  | _ => []
  end.

(** ** Sample JSON *)

(** A catalog whose literals are not all strings: the numbers 100, 0.5 and
    10^21, the boolean false. *)
Definition sliderCatalog : Js.value :=
  Js.Obj [("components",
           Js.Arr [Js.Obj [("name", Js.Str "Slider");
                           ("description", Js.Str "A range input.");
                           ("import", Js.Str "import {Slider} from '@heroui/react';");
                           ("props",
                            Js.Arr [Js.Obj [("name", Js.Str "maxValue");
                                            ("type", Js.Str "number");
                                            ("default", Js.Num "100" true);
                                            ("options", Js.Arr [Js.Num "0.5" true;
                                                                Js.Num "100" true;
                                                                Js.Num "1e+21" true]);
                                            ("description", Js.Str "The greatest value.")];
                                    Js.Obj [("name", Js.Str "isDisabled");
                                            ("type", Js.Str "boolean");
                                            ("default", Js.Bool false);
                                            ("description", Js.Str "Whether it is disabled.")]]);
                           ("example", Js.Str "<Slider/>")]])].

(** A catalog with every named field, whose one property has the number 5
    for its type. *)
Definition numericTypeCatalog : Js.value :=
  Js.Obj [("components",
           Js.Arr [Js.Obj [("name", Js.Str "Badge");
                           ("description", Js.Str "x");
                           ("import", Js.Str "import {Badge}...");
                           ("props",
                            Js.Arr [Js.Obj [("name", Js.Str "count");
                                            ("type", Js.Num "5" true);
                                            ("description", Js.Str "d")]]);
                           ("example", Js.Str "<Badge/>")]])].

(** The catalog of [badge] as another file might hold it: keys in another
    order, and keys the data model does not name. *)
Definition badgeVariant : Js.value :=
  Js.Obj [("version", Js.Num "2" true);
          ("components",
           Js.Arr [Js.Obj [("example", Js.Str "<Badge/>");
                           ("props",
                            Js.Arr [Js.Obj [("description", Js.Str "d");
                                            ("since", Js.Str "2.0");
                                            ("options", Js.Arr [Js.Str "default";
                                                                Js.Str "primary"]);
                                            ("default", Js.Str "default");
                                            ("type", Js.Str "default | primary");
                                            ("name", Js.Str "color")]]);
                           ("deprecated", Js.Bool false);
                           ("import", Js.Str "import {Badge}...");
                           ("description", Js.Str "x");
                           ("name", Js.Str "Badge")]])].

(** * Properties *)

#[local] Arguments String.append !_ _ / : simpl nomatch.

(** ** Strings *)

Lemma append_assoc (a b c : string) : (a +:+ b) +:+ c = a +:+ (b +:+ c).
Proof. induction a as [|x a IH]; simpl; [reflexivity | by rewrite IH]. Qed.

Lemma append_nil_r (a : string) : a +:+ "" = a.
Proof. induction a as [|x a IH]; simpl; [reflexivity | by rewrite IH]. Qed.

Lemma length_append (a b : string) :
  String.length (a +:+ b) = String.length a + String.length b.
Proof. induction a as [|x a IH]; simpl; [reflexivity | by rewrite IH]. Qed.

Lemma countPipes_append (a b : string) :
  countPipes (a +:+ b) = countPipes a + countPipes b.
Proof. induction a as [|x a IH]; simpl; [reflexivity | rewrite IH; lia]. Qed.

Lemma string_of_list_ascii_app (l k : list ascii) :
  String.string_of_list_ascii (l ++ k)
  = String.string_of_list_ascii l +:+ String.string_of_list_ascii k.
Proof. induction l as [|x l IH]; simpl; [reflexivity | by rewrite IH]. Qed.

(** Brings both sides of an equation between concatenations to the form
    in which every append is nested to the right. *)
Ltac string_norm :=
  repeat first [rewrite !append_assoc | progress simpl]; try reflexivity.

(** Closes a branch that completes normally or throws a type error. *)
Ltac throws_TypeError := first [discriminate | congruence].

(** ** The escaping of the type *)

Lemma escapePipes_nil : escapePipes "" = "".
Proof. reflexivity. Qed.

Lemma escapePipes_pipe (rest : string) :
  escapePipes (String pipe rest) = String backslash (String pipe (escapePipes rest)).
Proof. reflexivity. Qed.

Lemma escapePipes_other (c : ascii) (rest : string) :
  Ascii.eqb c pipe = false ->
  escapePipes (String c rest) = String c (escapePipes rest).
Proof. intros H. unfold escapePipes. simpl. by rewrite H. Qed.

(** The source's [replace] computes the escaping the specification words. *)
Lemma escapePipes_spec (type : string) : escapePipes type = specEscape type.
Proof.
  unfold specEscape.
  induction type as [|c rest IH]; [reflexivity|].
  simpl. rewrite string_of_list_ascii_app, <- IH.
  unfold escapeChar. destruct (Ascii.eqb c pipe) eqn:E.
  - apply Ascii.eqb_eq in E. subst c. reflexivity.
  - by rewrite escapePipes_other.
Qed.

Lemma countPipes_escapePipes (type : string) :
  countPipes (escapePipes type) = countPipes type.
Proof.
  induction type as [|c rest IH]; [reflexivity|].
  destruct (Ascii.eqb c pipe) eqn:E.
  - apply Ascii.eqb_eq in E. subst c. rewrite escapePipes_pipe. simpl. by rewrite IH.
  - rewrite escapePipes_other by done. simpl. by rewrite E, IH.
Qed.

Lemma length_escapePipes (type : string) :
  String.length (escapePipes type) = String.length type + countPipes type.
Proof.
  induction type as [|c rest IH]; [reflexivity|].
  destruct (Ascii.eqb c pipe) eqn:E.
  - apply Ascii.eqb_eq in E. subst c. rewrite escapePipes_pipe. simpl. rewrite IH. lia.
  - rewrite escapePipes_other by done. simpl. rewrite E, IH. lia.
Qed.

Lemma escapePipes_no_pipe (type : string) :
  countPipes type = 0 -> escapePipes type = type.
Proof.
  induction type as [|c rest IH]; [reflexivity|].
  simpl. destruct (Ascii.eqb c pipe) eqn:E; [discriminate|].
  intros H. rewrite escapePipes_other by done. by rewrite IH.
Qed.

(** C10. The escaping puts a backslash before every [|], also before one
    that already follows a backslash: it treats each character on its own,
    keeps the number of [|] and adds one character for each, so on a type
    with at least one [|] a second pass differs from the first; the two
    characters [\|] become [\\|]. *)
Theorem escapePipes_not_idempotent :
  (forall type : string,
      1 <= countPipes type ->
      escapePipes (escapePipes type) <> escapePipes type)
  /\ (forall type : string,
        escapePipes type = specEscape type
        /\ countPipes (escapePipes type) = countPipes type
        /\ String.length (escapePipes type)
           = String.length type + countPipes type)
  /\ escapePipes "\|" = "\\|".
Proof.
  split; [|split].
  - intros type Hpipe Heq.
    apply (f_equal String.length) in Heq.
    rewrite !length_escapePipes, countPipes_escapePipes in Heq. lia.
  - intros type. split; [apply escapePipes_spec|].
    split; [apply countPipes_escapePipes | apply length_escapePipes].
  - reflexivity.
Qed.

Lemma escapePipes_not_idempotent_witness :
  escapePipes (escapePipes "string | boolean") <> escapePipes "string | boolean".
Proof.
  apply (proj1 escapePipes_not_idempotent "string | boolean").
  simpl. lia.
Defined.

(** ** Cutting a row *)

Lemma noCut_ordinary (c : ascii) (s t : string) (e : bool) :
  Ascii.eqb c pipe = false -> Ascii.eqb c backslash = false ->
  noCut e (s +:+ String c t) = noCut e s && noCut false t.
Proof.
  intros Hp Hb. revert e.
  induction s as [|a s IH]; intros e; simpl.
  - by rewrite Hp, Hb.
  - rewrite IH. by rewrite andb_assoc.
Qed.

Lemma noCut_escapePipes (type : string) (e : bool) :
  noCut e (escapePipes type) = true.
Proof.
  revert e. induction type as [|c rest IH]; intros e; [reflexivity|].
  destruct (Ascii.eqb c pipe) eqn:E.
  - apply Ascii.eqb_eq in E. subst c. rewrite escapePipes_pipe. simpl. apply IH.
  - rewrite escapePipes_other by done. simpl. rewrite E. simpl. apply IH.
Qed.

Lemma join_cons (sep x y : string) (rest : list string) :
  join sep (x :: y :: rest) = x +:+ sep +:+ join sep (y :: rest).
Proof. reflexivity. Qed.

Lemma noCut_separator (s t : string) (e : bool) :
  noCut e (s +:+ "`, `" +:+ t) = noCut e s && noCut false t.
Proof.
  change (s +:+ "`, `" +:+ t) with (s +:+ String "`"%char (", `" +:+ t)).
  by rewrite noCut_ordinary.
Qed.

Lemma noCut_join_code (options : list string) :
  noCut false (join "`, `" options +:+ "`") = forallb noUnescapedPipe options.
Proof.
  induction options as [|o rest IH]; [reflexivity|].
  destruct rest as [|o' rest].
  - change (join "`, `" [o]) with o.
    by rewrite (noCut_ordinary "`").
  - rewrite join_cons, !append_assoc, noCut_separator, IH. reflexivity.
Qed.

Lemma splitUnescaped_cons (e : bool) (c : ascii) (rest : string) :
  splitUnescaped e (String c rest)
  = if Ascii.eqb c pipe && negb e
    then EmptyString :: splitUnescaped false rest
    else pushChar c (splitUnescaped (Ascii.eqb c backslash) rest).
Proof. reflexivity. Qed.

(** A clean cell followed by the delimiter is cut off as one column. *)
Lemma split_cell (s t : string) (e : bool) :
  noCut e s = true ->
  splitUnescaped e (s +:+ " |" +:+ t) = (s +:+ " ") :: splitUnescaped false t.
Proof.
  revert e. induction s as [|a s IH]; intros e H.
  - reflexivity.
  - simpl in H. apply andb_true_iff in H as [Ha Hs].
    apply negb_true_iff in Ha.
    change (String a s +:+ " |" +:+ t) with (String a (s +:+ " |" +:+ t)).
    by rewrite splitUnescaped_cons, Ha, (IH _ Hs).
Qed.

Lemma length_pushChar (c : ascii) (cells : list string) :
  cells <> [] -> length (pushChar c cells) = length cells.
Proof. by destruct cells. Qed.

Lemma splitUnescaped_not_nil (e : bool) (s : string) : splitUnescaped e s <> [].
Proof.
  destruct s as [|c rest]; [discriminate|].
  simpl. destruct (Ascii.eqb c pipe && negb e); [discriminate|].
  by destruct (splitUnescaped (Ascii.eqb c backslash) rest).
Qed.

(** Cutting gives one piece more than there are cuts. *)
Lemma length_splitUnescaped (e : bool) (s : string) :
  length (splitUnescaped e s) = S (countCuts e s).
Proof.
  revert e. induction s as [|c rest IH]; intros e; [reflexivity|].
  simpl. destruct (Ascii.eqb c pipe) eqn:Hc; destruct e; simpl.
  - rewrite length_pushChar by apply splitUnescaped_not_nil. apply IH.
  - apply Ascii.eqb_eq in Hc. subst c. simpl. by rewrite IH.
  - rewrite length_pushChar by apply splitUnescaped_not_nil. apply IH.
  - rewrite length_pushChar by apply splitUnescaped_not_nil. apply IH.
Qed.

Lemma noCut_countCuts (e : bool) (s : string) :
  noCut e s = true <-> countCuts e s = 0.
Proof.
  revert e. induction s as [|c rest IH]; intros e; [done|].
  simpl. rewrite andb_true_iff, IH.
  destruct (Ascii.eqb c pipe && negb e); simpl; [|tauto].
  split; [by intros [? ?] | lia].
Qed.

Lemma countCuts_ordinary (c : ascii) (s t : string) (e : bool) :
  Ascii.eqb c pipe = false -> Ascii.eqb c backslash = false ->
  countCuts e (s +:+ String c t) = countCuts e s + countCuts false t.
Proof.
  intros Hp Hb. revert e.
  induction s as [|a s IH]; intros e; simpl.
  - by rewrite Hp, Hb.
  - rewrite IH. lia.
Qed.

Lemma countCuts_cell (s t : string) (e : bool) :
  countCuts e (s +:+ " |" +:+ t) = countCuts e s + S (countCuts false t).
Proof.
  change (s +:+ " |" +:+ t) with (s +:+ String " "%char (String pipe t)).
  by rewrite countCuts_ordinary.
Qed.

Lemma renderRow_cells (prop : PropertyRecord) :
  renderRow prop = "| " +:+ join " | " (rowCells prop) +:+ " |".
Proof.
  unfold renderRow, rowCells, join, code. string_norm.
Qed.

(** The row as its leading delimiter and five cells, each closed by a
    space and a delimiter. *)
Lemma renderRow_delimited (prop : PropertyRecord) :
  renderRow prop
  = "|" +:+ (" `" +:+ prop_name prop +:+ "`") +:+ " |"
        +:+ (" `" +:+ escapePipes (prop_type prop) +:+ "`") +:+ " |"
        +:+ (" " +:+ defaultCell prop) +:+ " |"
        +:+ (" " +:+ optionsCell prop) +:+ " |"
        +:+ (" " +:+ prop_description prop) +:+ " |" +:+ "".
Proof. unfold renderRow. string_norm. Qed.

Lemma nameCell_clean (name : string) :
  noCut false (" `" +:+ name +:+ "`") = noUnescapedPipe name.
Proof.
  simpl. rewrite (noCut_ordinary "`") by reflexivity. apply andb_true_r.
Qed.

Lemma typeCell_clean (type : string) :
  noCut false (" `" +:+ escapePipes type +:+ "`") = true.
Proof.
  simpl. rewrite (noCut_ordinary "`") by reflexivity.
  by rewrite noCut_escapePipes.
Qed.

Lemma truthy_false (s : string) : truthy s = false <-> s = "".
Proof.
  unfold truthy. rewrite negb_false_iff. apply String.eqb_eq.
Qed.

Lemma defaultCell_clean (prop : PropertyRecord) :
  noCut false (" " +:+ defaultCell prop)
  = from_option noUnescapedPipe true (prop_default prop).
Proof.
  unfold defaultCell. destruct (prop_default prop) as [d|]; [|reflexivity].
  destruct (truthy d) eqn:E.
  - simpl. rewrite (noCut_ordinary "`") by reflexivity. apply andb_true_r.
  - apply truthy_false in E. by subst d.
Qed.

Lemma optionsCell_clean (prop : PropertyRecord) :
  noCut false (" " +:+ optionsCell prop)
  = from_option (forallb noUnescapedPipe) true (prop_options prop).
Proof.
  unfold optionsCell. destruct (prop_options prop) as [os|]; [|reflexivity].
  simpl. apply noCut_join_code.
Qed.

(** With clean fields around the type, a row reads back as its five cells. *)
Lemma logicalColumns_renderRow (prop : PropertyRecord) :
  otherFieldsClean prop = true ->
  logicalColumns (renderRow prop) = map padCell (rowCells prop).
Proof.
  unfold otherFieldsClean.
  intros [[[Hname Hdefault]%andb_true_iff Hoptions]%andb_true_iff
          Hdescr]%andb_true_iff.
  rewrite renderRow_delimited. unfold logicalColumns.
  change (splitUnescaped false ("|" +:+ ?x)) with ("" :: splitUnescaped false x).
  rewrite !split_cell.
  - reflexivity.
  - exact Hdescr.
  - by rewrite optionsCell_clean.
  - by rewrite defaultCell_clean.
  - apply typeCell_clean.
  - by rewrite nameCell_clean.
Qed.

Lemma length_logicalColumns (row : string) :
  length (logicalColumns row) = countCuts false row - 1.
Proof.
  unfold logicalColumns.
  pose proof (length_splitUnescaped false row) as Hlen.
  destruct (splitUnescaped false row) as [|first rest]; [discriminate|].
  simpl in Hlen. injection Hlen as Hlen. simpl tail.
  rewrite <- Hlen. clear Hlen.
  induction rest as [|x rest IH]; [reflexivity|].
  destruct rest as [|y rest]; [reflexivity|].
  simpl in *. rewrite IH. lia.
Qed.

(** The columns of a row are five and one more for every cut inside a
    cell. *)
Lemma count_logicalColumns (prop : PropertyRecord) :
  length (logicalColumns (renderRow prop))
  = 5 + countCuts false (" `" +:+ prop_name prop +:+ "`")
      + countCuts false (" " +:+ defaultCell prop)
      + countCuts false (" " +:+ optionsCell prop)
      + countCuts false (" " +:+ prop_description prop).
Proof.
  rewrite length_logicalColumns, renderRow_delimited.
  change (countCuts false ("|" +:+ ?x)) with (S (countCuts false x)).
  rewrite !countCuts_cell.
  pose proof (typeCell_clean (prop_type prop)) as Htype.
  apply noCut_countCuts in Htype. rewrite Htype. simpl countCuts at 5. lia.
Qed.

Lemma five_columns_iff_clean (prop : PropertyRecord) :
  length (logicalColumns (renderRow prop)) = 5
  <-> otherFieldsClean prop = true.
Proof.
  rewrite count_logicalColumns. unfold otherFieldsClean.
  rewrite !andb_true_iff.
  rewrite <- nameCell_clean, <- defaultCell_clean, <- optionsCell_clean.
  change (noUnescapedPipe (prop_description prop))
    with (noCut false (" " +:+ prop_description prop)).
  rewrite !noCut_countCuts. lia.
Qed.

(** ** The cells of a row *)

(** C1 (amended). In every row the Type cell is the type in inline-code
    markers with each [|] replaced by [\|]. When no other field of the
    record holds an unescaped [|], the row, cut at its unescaped [|], reads
    back as exactly five columns, which are its five cells, whatever [|]
    the type contains; and a row has five columns only then. The record
    with type [default | primary] renders its type cell as
    [`default \| primary`]. *)
Theorem type_cell_escaped_and_five_columns :
  (forall prop : PropertyRecord,
      rowCells prop !! 1 = Some (code (specEscape (prop_type prop)))
      /\ renderRow prop = "| " +:+ join " | " (rowCells prop) +:+ " |"
      /\ (otherFieldsClean prop = true ->
          logicalColumns (renderRow prop) = map padCell (rowCells prop))
      /\ (length (logicalColumns (renderRow prop)) = 5
          <-> otherFieldsClean prop = true))
  /\ rowCells badgeColor !! 1 = Some "`default \| primary`"
  /\ renderRow badgeColor
     = "| `color` | `default \| primary` | `default` | `default`, `primary` | d |".
Proof.
  split; [|split; reflexivity].
  intros prop. split; [|split; [|split]].
  - simpl. by rewrite escapePipes_spec.
  - apply renderRow_cells.
  - apply logicalColumns_renderRow.
  - apply five_columns_iff_clean.
Qed.

Lemma type_cell_escaped_and_five_columns_witness :
  logicalColumns (renderRow badgeColor)
  = [" `color` "; " `default \| primary` "; " `default` ";
     " `default`, `primary` "; " d "]
  /\ length (logicalColumns (renderRow badgeColor)) = 5.
Proof.
  destruct (proj1 type_cell_escaped_and_five_columns badgeColor)
    as (_ & _ & Hcells & Hfive).
  split; [exact (Hcells eq_refl) | exact (proj2 Hfive eq_refl)].
Defined.

(** C1, as stated, fails: the type of [pipedDescription] holds a [|], and
    its row has six columns, since the [|] of the description cuts it. *)
Lemma piped_description_six_columns :
  1 <= countPipes (prop_type pipedDescription)
  /\ length (logicalColumns (renderRow pipedDescription)) = 6
  /\ length (logicalColumns (renderRow pipedDescription)) <> 5.
Proof. split; [simpl; lia | split; [reflexivity | discriminate]]. Qed.

(** C2 (amended). The Default cell is empty exactly when the default is
    absent or is the empty string, the one falsy literal; every other
    default is shown in inline-code markers. A record with neither default
    nor options renders two empty cells in these positions, with nothing
    between the delimiters but the two spaces of the template. *)
Theorem default_cell_empty_or_code :
  forall prop : PropertyRecord,
    rowCells prop !! 2 = Some (defaultCell prop)
    /\ (defaultCell prop = ""
        <-> prop_default prop = None \/ prop_default prop = Some "")
    /\ (forall default : string,
           prop_default prop = Some default -> default <> "" ->
           defaultCell prop = code default)
    /\ (prop_default prop = None -> prop_options prop = None ->
        defaultCell prop = "" /\ optionsCell prop = ""
        /\ renderRow prop
           = "| `" +:+ prop_name prop +:+ "` | `"
             +:+ escapePipes (prop_type prop) +:+ "` |  |  | "
             +:+ prop_description prop +:+ " |").
Proof.
  intros prop. split; [reflexivity|]. split; [|split].
  - unfold defaultCell. destruct (prop_default prop) as [d|].
    + destruct (truthy d) eqn:E.
      * split; [discriminate|].
        intros [H|H]; [discriminate|]. injection H as ->. discriminate E.
      * apply truthy_false in E. subst d. split; auto.
    + split; auto.
  - intros d Hd Hne. unfold defaultCell. rewrite Hd.
    destruct (truthy d) eqn:E; [reflexivity|].
    by apply truthy_false in E.
  - intros Hd Ho. unfold renderRow, defaultCell, optionsCell.
    rewrite Hd, Ho. repeat split.
Qed.

Lemma default_cell_empty_or_code_witness :
  defaultCell badgeColor = "`default`"
  /\ renderRow children
     = "| `children` | `ReactNode[]` |  |  | The accordion items. |".
Proof.
  destruct (default_cell_empty_or_code badgeColor) as (_ & _ & Hcode & _).
  destruct (default_cell_empty_or_code children) as (_ & _ & _ & Hempty).
  split.
  - apply (Hcode "default"); [reflexivity | discriminate].
  - apply (Hempty eq_refl eq_refl).
Defined.

(** C2, as stated, fails: [emptyDefault] has a default, the empty string,
    and its Default cell is empty all the same. *)
Lemma empty_default_renders_empty_cell :
  ~ (defaultCell emptyDefault = "" <-> prop_default emptyDefault = None).
Proof. intros [H _]. specialize (H eq_refl). discriminate. Qed.

Lemma defaultCell_spec (prop : PropertyRecord) :
  defaultCell prop = specDefaultCell (prop_default prop).
Proof.
  unfold defaultCell. by destruct (prop_default prop) as [[|c rest]|].
Qed.

Lemma optionsCell_spec_list (o : string) (options : list string) :
  "`" +:+ join "`, `" (o :: options) +:+ "`" = specOptionsList (o :: options).
Proof.
  revert o. induction options as [|o' rest IH]; intros o; [reflexivity|].
  rewrite join_cons.
  change (specOptionsList (o :: o' :: rest))
    with ("`" +:+ o +:+ "`, " +:+ specOptionsList (o' :: rest)).
  rewrite <- IH. string_norm.
Qed.

Lemma optionsCell_spec (prop : PropertyRecord) :
  optionsCell prop = specOptionsCell (prop_options prop).
Proof.
  unfold optionsCell. destruct (prop_options prop) as [[|o rest]|];
    [reflexivity | apply optionsCell_spec_list | reflexivity].
Qed.

(** C3. The type is the only field the row template transforms. The row
    is the fixed text of the template around the name, the escaped type,
    the default, the options and the description, each of these four as it
    is: a default that is shown stands between inline-code markers
    unchanged, the option values stand each between inline-code markers
    unchanged, and the description is the last cell with no escaping of
    [|]. In the row of [pipedFields] every [|] outside the type is still
    bare. A type without [|] is emitted as it is too. *)
Theorem only_type_is_transformed :
  (forall prop : PropertyRecord,
      renderRow prop
      = "| `" +:+ prop_name prop +:+ "` | `" +:+ specEscape (prop_type prop)
        +:+ "` | " +:+ specDefaultCell (prop_default prop)
        +:+ " | " +:+ specOptionsCell (prop_options prop)
        +:+ " | " +:+ prop_description prop +:+ " |"
      /\ rowCells prop !! 0 = Some ("`" +:+ prop_name prop +:+ "`")
      /\ rowCells prop !! 4 = Some (prop_description prop)
      /\ (forall default : string,
             prop_default prop = Some default -> default <> "" ->
             rowCells prop !! 2 = Some ("`" +:+ default +:+ "`"))
      /\ (forall options : list string,
             prop_options prop = Some options -> options <> [] ->
             rowCells prop !! 3 = Some (specOptionsList options))
      /\ (countPipes (prop_type prop) = 0 ->
          specEscape (prop_type prop) = prop_type prop))
  /\ renderRow pipedFields
     = "| `a|b` | `x \| y` | `c|d` | `c|d`, `e`, `f|g|h` | escaped \| and not | escaped |"
  /\ specOptionsList ["c|d"; "e"; "f|g|h"] = "`c|d`, `e`, `f|g|h`".
Proof.
  split; [|split; reflexivity].
  intros prop. split; [|split; [|split; [|split; [|split]]]].
  - unfold renderRow.
    by rewrite escapePipes_spec, defaultCell_spec, optionsCell_spec.
  - reflexivity.
  - reflexivity.
  - intros default Hdefault Hne. simpl. rewrite defaultCell_spec, Hdefault.
    by destruct default.
  - intros options Hoptions Hne. simpl. rewrite optionsCell_spec, Hoptions.
    by destruct options.
  - intros H. rewrite <- escapePipes_spec. by apply escapePipes_no_pipe.
Qed.

Lemma only_type_is_transformed_witness :
  rowCells pipedFields !! 2 = Some "`c|d`"
  /\ rowCells pipedFields !! 3 = Some "`c|d`, `e`, `f|g|h`"
  /\ specEscape (prop_type children) = prop_type children.
Proof.
  destruct (proj1 only_type_is_transformed pipedFields)
    as (_ & _ & _ & Hdefault & Hoptions & _).
  destruct (proj1 only_type_is_transformed children)
    as (_ & _ & _ & _ & _ & Htype).
  split; [|split].
  - apply (Hdefault "c|d"); [reflexivity | discriminate].
  - apply (Hoptions ["c|d"; "e"; "f|g|h"]); [reflexivity | discriminate].
  - apply Htype. reflexivity.
Defined.

Lemma join_code (o : string) (options : list string) :
  "`" +:+ join "`, `" (o :: options) +:+ "`" = join ", " (map code (o :: options)).
Proof.
  revert o. induction options as [|o' rest IH]; intros o; [reflexivity|].
  specialize (IH o'). simpl map in *.
  rewrite !join_cons, <- IH. unfold code. string_norm.
Qed.

(** C5. The Options cell is empty when the options are absent; otherwise
    it holds all values, in order, joined by [`, `] between a leading and a
    trailing inline-code marker, so that a non-empty list reads as its
    values, each in inline-code markers, separated by a comma and a space:
    [default] and [primary] give [`default`, `primary`]. *)
Theorem options_cell_joined :
  (forall prop : PropertyRecord,
      rowCells prop !! 3 = Some (optionsCell prop)
      /\ (prop_options prop = None -> optionsCell prop = "")
      /\ (forall options : list string,
             prop_options prop = Some options ->
             optionsCell prop = "`" +:+ join "`, `" options +:+ "`")
      /\ (forall options : list string,
             prop_options prop = Some options -> options <> [] ->
             optionsCell prop = join ", " (map code options)))
  /\ optionsCell badgeColor = "`default`, `primary`".
Proof.
  split; [|reflexivity].
  intros prop. split; [reflexivity|]. unfold optionsCell.
  split; [|split].
  - by intros ->.
  - by intros options ->.
  - intros options -> Hne. destruct options as [|o rest]; [done|].
    by apply join_code.
Qed.

Lemma options_cell_joined_witness :
  optionsCell badgeColor = join ", " [code "default"; code "primary"].
Proof.
  destruct (proj1 options_cell_joined badgeColor) as (_ & _ & _ & Hcodes).
  apply (Hcodes ["default"; "primary"]); [reflexivity | discriminate].
Defined.

(** C9. A present but empty list of options does not give an empty cell:
    the cell is two adjacent inline-code markers, unlike the empty cell of
    a record without options. *)
Theorem empty_options_cell_is_two_markers :
  forall prop : PropertyRecord,
    prop_options prop = Some [] ->
    optionsCell prop = "``"
    /\ optionsCell prop <> ""
    /\ (forall other : PropertyRecord,
           prop_options other = None -> optionsCell other = ""
           /\ optionsCell other <> optionsCell prop).
Proof.
  intros prop Hempty. unfold optionsCell. rewrite Hempty.
  split; [reflexivity|]. split; [discriminate|].
  intros other ->. split; [reflexivity | discriminate].
Qed.

Lemma empty_options_cell_is_two_markers_witness :
  optionsCell noOptions = "``"
  /\ renderRow noOptions = "| `variant` | `string` |  | `` | The appearance style. |".
Proof.
  split.
  - apply (empty_options_cell_is_two_markers noOptions). reflexivity.
  - reflexivity.
Defined.

(** ** Blocks and the whole document *)

Lemma join_empty_cons (x : string) (l : list string) :
  join "" (x :: l) = x +:+ join "" l.
Proof. destruct l; [symmetry; apply append_nil_r | reflexivity]. Qed.

Lemma lookup_map {A B : Type} (f : A -> B) (l : list A) (i : nat) :
  map f l !! i = f <$> (l !! i).
Proof.
  revert i. induction l as [|x l IH]; intros [|i]; simpl; try reflexivity.
  apply IH.
Qed.

(** The accumulator after the loop is the accumulator before it followed
    by the blocks of the components, in their order. *)
Lemma fold_left_blocks (catalog : Catalog) (mdxContent : string) :
  fold_left (fun mdxContent component => mdxContent +:+ renderBlock component)
            catalog mdxContent
  = mdxContent +:+ join "" (map renderBlock catalog).
Proof.
  revert mdxContent.
  induction catalog as [|component catalog IH]; intros mdxContent.
  - symmetry. apply append_nil_r.
  - simpl fold_left. rewrite IH. simpl map.
    by rewrite join_empty_cons, append_assoc.
Qed.

Lemma render_blocks (catalog : Catalog) :
  render catalog = preamble +:+ join "" (map renderBlock catalog).
Proof. apply fold_left_blocks. Qed.

Lemma render_app (catalog more : Catalog) :
  render (catalog ++ more) = render catalog +:+ join "" (map renderBlock more).
Proof. unfold render. by rewrite fold_left_app, !fold_left_blocks. Qed.

(** C4. The output is the preamble followed by one block per component:
    as many blocks as records, the i-th block rendering the i-th record,
    the empty catalog giving the preamble alone; rendering a longer catalog
    extends the output of a shorter one. In each block the rows of the
    table are the rows of the properties, in their order. *)
Theorem render_is_preamble_then_blocks_in_order :
  forall catalog : Catalog,
    render catalog = preamble +:+ join "" (map renderBlock catalog)
    /\ length (map renderBlock catalog) = length catalog
    /\ (catalog = [] -> render catalog = preamble)
    /\ (forall (i : nat) (component : ComponentRecord),
           catalog !! i = Some component ->
           map renderBlock catalog !! i = Some (renderBlock component))
    /\ (forall more : Catalog,
           render (catalog ++ more)
           = render catalog +:+ join "" (map renderBlock more))
    /\ (forall component : ComponentRecord,
           renderBlock component
           = blockHead component +:+ tableHeader
             +:+ join nl (tableRows component) +:+ blockTail component
           /\ length (tableRows component)
              = length (component_props component)
           /\ (forall (j : nat) (prop : PropertyRecord),
                  component_props component !! j = Some prop ->
                  tableRows component !! j = Some (renderRow prop))).
Proof.
  intros catalog.
  split; [apply render_blocks|].
  split; [apply length_map|].
  split; [by intros ->|].
  split; [intros i component Hi; by rewrite lookup_map, Hi|].
  split; [intros more; apply render_app|].
  intros component.
  split; [reflexivity|].
  split; [apply length_map|].
  intros j prop Hj. unfold tableRows. by rewrite lookup_map, Hj.
Qed.

Lemma render_is_preamble_then_blocks_in_order_witness :
  render [] = preamble
  /\ map renderBlock [badge; spacer] !! 1 = Some (renderBlock spacer)
  /\ tableRows badge !! 0 = Some (renderRow badgeColor).
Proof.
  destruct (render_is_preamble_then_blocks_in_order []) as (_ & _ & Hnil & _).
  destruct (render_is_preamble_then_blocks_in_order [badge; spacer])
    as (_ & _ & _ & Hblock & _ & Hrows).
  destruct (Hrows badge) as (_ & _ & Hrow).
  split; [apply Hnil; reflexivity | split].
  - apply Hblock. reflexivity.
  - apply Hrow. reflexivity.
Defined.

(** C6. A component without properties renders a table that is the header
    row and the delimiter row, followed at once by the rest of the block:
    no data row. *)
Theorem empty_props_header_only :
  forall component : ComponentRecord,
    component_props component = [] ->
    tableRows component = []
    /\ renderBlock component
       = blockHead component
         +:+ "| Name | Type | Default | Options | Description |" +:+ nl
         +:+ "| --- | --- | --- | --- | --- |" +:+ nl
         +:+ blockTail component.
Proof.
  intros component Hprops. unfold renderBlock, tableRows. rewrite Hprops.
  split; [reflexivity|]. unfold tableHeader. string_norm.
Qed.

Lemma empty_props_header_only_witness :
  tableRows spacer = []
  /\ renderBlock spacer
     = blockHead spacer
       +:+ "| Name | Type | Default | Options | Description |" +:+ nl
       +:+ "| --- | --- | --- | --- | --- |" +:+ nl
       +:+ blockTail spacer.
Proof. apply (empty_props_header_only spacer). reflexivity. Defined.

(** ** The script on a catalog of the documented shape *)

Lemma joinWith_Str (stack : nat) (sep : string) (literals : list string) :
  Js.joinWith (Js.elemToString stack) sep (map Js.Str literals)
  = Js.Normal (join sep literals).
Proof.
  induction literals as [|x rest IH]; [reflexivity|].
  destruct rest as [|y rest]; [reflexivity|].
  rewrite join_cons. simpl map in *.
  change (Js.joinWith (Js.elemToString stack) sep (Js.Str x :: Js.Str y :: map Js.Str rest))
    with (match Js.joinWith (Js.elemToString stack) sep (Js.Str y :: map Js.Str rest) with
          | Js.Normal others => Js.Normal (x +:+ sep +:+ others)
          | Js.Throw e => Js.Throw e
          end).
  by rewrite IH.
Qed.

Lemma row_encodeProperty (stack : nat) (prop : PropertyRecord) :
  Js.row stack (Js.encodeProperty prop) = Js.Normal (renderRow prop).
Proof.
  destruct prop as [name type [default|] [options|] description];
    unfold Js.row, Js.defaultCell, Js.optionsCell, Js.encodeProperty,
      renderRow, defaultCell, optionsCell;
    simpl; rewrite ?joinWith_Str; try destruct (truthy default);
    reflexivity.
Qed.

Lemma mapM_row_encodeProperty (stack : nat) (props : list PropertyRecord) :
  mapM (Js.row stack) (map Js.encodeProperty props)
  = Js.Normal (map renderRow props).
Proof.
  induction props as [|prop props IH]; [reflexivity|].
  simpl. rewrite row_encodeProperty. simpl. rewrite IH. reflexivity.
Qed.

Lemma block_encodeComponent (stack : nat) (component : ComponentRecord) :
  Js.block stack (Js.encodeComponent component)
  = Js.Normal (renderBlock component).
Proof.
  unfold Js.block, Js.encodeComponent. simpl.
  rewrite mapM_row_encodeProperty. simpl.
  unfold renderBlock, blockHead, blockTail, tableRows. f_equal. string_norm.
Qed.

Lemma forEach_encodeComponent (stack : nat) (catalog : Catalog)
    (mdxContent : string) :
  Js.Array_forEach (Js.Arr (map Js.encodeComponent catalog))
    (fun mdxContent component =>
       rendered ← Js.block stack component; mret (mdxContent +:+ rendered))
    mdxContent
  = Js.Normal
      (fold_left (fun mdxContent component => mdxContent +:+ renderBlock component)
                 catalog mdxContent).
Proof.
  unfold Js.Array_forEach. revert mdxContent.
  induction catalog as [|component catalog IH]; intros mdxContent; [reflexivity|].
  simpl. rewrite block_encodeComponent. simpl. apply IH.
Qed.

(** On the JSON of a catalog the script computes what the renderer on the
    data model computes. *)
Lemma generate_encodeCatalog (stack : nat) (catalog : Catalog) :
  Js.generate stack (Js.encodeCatalog catalog) = Js.Normal (render catalog).
Proof.
  unfold Js.generate, Js.encodeCatalog. simpl. apply forEach_encodeComponent.
Qed.

(** ** The script on any parsed JSON *)

Lemma forallb_map_true {A B : Type} (f : A -> B) (p : B -> bool) (l : list A) :
  (forall x, p (f x) = true) -> forallb p (map f l) = true.
Proof.
  intros H. induction l as [|x l IH]; [reflexivity|].
  simpl. by rewrite H, IH.
Qed.

Lemma validProperty_encodeProperty (prop : PropertyRecord) :
  Js.validProperty (Js.encodeProperty prop) = true.
Proof.
  destruct prop as [name type [default|] [options|] description];
    try reflexivity.
  - change (forallb Js.isLiteral (map Js.Str options) = true).
    by apply forallb_map_true.
  - change (forallb Js.isLiteral (map Js.Str options) = true).
    by apply forallb_map_true.
Qed.

Lemma validComponent_encodeComponent (component : ComponentRecord) :
  Js.validComponent (Js.encodeComponent component) = true.
Proof.
  change (forallb Js.validProperty
            (map Js.encodeProperty (component_props component)) = true).
  apply forallb_map_true, validProperty_encodeProperty.
Qed.

Lemma validCatalog_encodeCatalog (catalog : Catalog) :
  Js.validCatalog (Js.encodeCatalog catalog) = true.
Proof.
  change (forallb Js.validComponent (map Js.encodeComponent catalog) = true).
  apply forallb_map_true, validComponent_encodeComponent.
Qed.

(** The text of a literal: [ToString] completes on it, whatever the
    stack. *)
Lemma ToString_literal (stack : nat) (v : Js.value) :
  Js.isLiteral v = true -> Js.ToString stack v = Js.Normal (literalText v).
Proof. by destruct v as [| |[]| | | |]. Qed.

Lemma ToString_Str (stack : nat) (v : Js.value) :
  Js.isStr v = true -> Js.ToString stack v = Js.Normal (literalText v).
Proof. by destruct v. Qed.

Lemma elemToString_literal (stack : nat) (v : Js.value) :
  Js.isLiteral v = true ->
  Js.elemToString stack v = Js.Normal (literalText v).
Proof. by destruct v as [| |[]| | | |]. Qed.

Lemma joinWith_literals (stack : nat) (sep : string) (values : list Js.value) :
  forallb Js.isLiteral values = true ->
  Js.joinWith (Js.elemToString stack) sep values
  = Js.Normal (join sep (map literalText values)).
Proof.
  induction values as [|x rest IH]; [reflexivity|].
  intros H. simpl in H. apply andb_true_iff in H as [Hx Hrest].
  destruct rest as [|y rest]; [by apply elemToString_literal|].
  simpl map in *. rewrite join_cons.
  change (Js.joinWith (Js.elemToString stack) sep (x :: y :: rest))
    with (match Js.elemToString stack x with
          | Js.Normal first =>
              match Js.joinWith (Js.elemToString stack) sep (y :: rest) with
              | Js.Normal others => Js.Normal (first +:+ sep +:+ others)
              | Js.Throw e => Js.Throw e
              end
          | Js.Throw e => Js.Throw e
          end).
  by rewrite (elemToString_literal _ _ Hx), (IH Hrest).
Qed.

Lemma defaultCell_valid (stack : nat) (default : Js.value) :
  (Js.ToBoolean default = true -> Js.isLiteral default = true) ->
  Js.defaultCell stack default
  = Js.Normal (if Js.ToBoolean default
               then "`" +:+ literalText default +:+ "`" else "").
Proof.
  unfold Js.defaultCell. intros Hdefault.
  destruct (Js.ToBoolean default) eqn:E; [|reflexivity].
  by rewrite ToString_literal by auto.
Qed.

Lemma literal_default (fields : list (string * Js.value)) :
  match Js.lookupField "default" fields with
  | Js.Undefined => true
  | default => Js.isLiteral default
  end = true ->
  Js.ToBoolean (Js.lookupField "default" fields) = true ->
  Js.isLiteral (Js.lookupField "default" fields) = true.
Proof. by destruct (Js.lookupField "default" fields). Qed.

Lemma optionsCell_valid (stack : nat) (options : Js.value) :
  match options with
  | Js.Undefined => true
  | Js.Arr values => forallb Js.isLiteral values
  | _ => false
  end = true ->
  Js.optionsCell stack options
  = Js.Normal match options with
              | Js.Arr values =>
                  "`" +:+ join "`, `" (map literalText values) +:+ "`"
              | _ => ""
              end.
Proof.
  unfold Js.optionsCell.
  destruct options as [| | | | |values|]; try discriminate; [reflexivity|].
  intros Hvalues. simpl. by rewrite (joinWith_literals _ _ _ Hvalues).
Qed.

Lemma row_valid (stack : nat) (prop : Js.value) :
  Js.validProperty prop = true ->
  exists cells, Js.row stack prop = Js.Normal cells.
Proof.
  destruct prop as [| | | | |?|fields]; try discriminate.
  unfold Js.validProperty.
  intros [[[[Hname Htype]%andb_true_iff Hdescr]%andb_true_iff
            Hdefault]%andb_true_iff Hoptions]%andb_true_iff.
  unfold Js.row. simpl.
  rewrite (ToString_Str _ _ Hname), (ToString_Str _ _ Hdescr),
    (defaultCell_valid _ _ (literal_default _ Hdefault)),
    (optionsCell_valid _ _ Hoptions).
  destruct (Js.lookupField "type" fields); try discriminate.
  simpl. by eexists.
Qed.

Lemma mapM_row_valid (stack : nat) (props : list Js.value) :
  forallb Js.validProperty props = true ->
  exists rows, mapM (Js.row stack) props = Js.Normal rows.
Proof.
  induction props as [|prop props IH]; [by eexists|].
  simpl. intros [Hprop Hprops]%andb_true_iff.
  destruct (row_valid stack _ Hprop) as [cells ->].
  destruct (IH Hprops) as [rows ->]. by eexists.
Qed.

Lemma block_valid (stack : nat) (component : Js.value) :
  Js.validComponent component = true ->
  exists rendered, Js.block stack component = Js.Normal rendered.
Proof.
  destruct component as [| | | | |?|fields]; try discriminate.
  unfold Js.validComponent.
  intros [[[[Hname Hdescr]%andb_true_iff Himport]%andb_true_iff
            Hexample]%andb_true_iff Hprops]%andb_true_iff.
  unfold Js.block. simpl.
  rewrite (ToString_Str _ _ Hname), (ToString_Str _ _ Hdescr),
    (ToString_Str _ _ Himport), (ToString_Str _ _ Hexample). simpl.
  destruct (Js.lookupField "props" fields); try discriminate. simpl.
  destruct (mapM_row_valid stack _ Hprops) as [rows ->]. by eexists.
Qed.

Lemma forEach_valid (stack : nat) (components : list Js.value)
    (mdxContent : string) :
  forallb Js.validComponent components = true ->
  exists out,
    fold_left
      (fun acc component =>
         content ← acc;
         (fun mdxContent component =>
            rendered ← Js.block stack component;
            mret (mdxContent +:+ rendered))
           content component)
      components (Js.Normal mdxContent)
    = Js.Normal out.
Proof.
  revert mdxContent.
  induction components as [|component components IH]; intros mdxContent;
    [by eexists|].
  simpl. intros [Hcomponent Hcomponents]%andb_true_iff.
  destruct (block_valid stack _ Hcomponent) as [rendered ->]. simpl.
  by apply IH.
Qed.

Lemma generate_valid (stack : nat) (data : Js.value) :
  Js.validCatalog data = true ->
  exists mdxContent, Js.generate stack data = Js.Normal mdxContent.
Proof.
  destruct data as [| | | | |?|fields]; try discriminate.
  unfold Js.validCatalog, Js.generate. simpl.
  destruct (Js.lookupField "components" fields); try discriminate.
  apply forEach_valid.
Qed.

(** *** The errors the script can raise while rendering *)

Lemma bind_throws {A B : Type} (m : Js.completion A)
    (f : A -> Js.completion B) (e : Js.error) :
  (forall e', m = Js.Throw e' -> Js.languageError e') ->
  (forall a e', f a = Js.Throw e' -> Js.languageError e') ->
  m ≫= f = Js.Throw e -> Js.languageError e.
Proof.
  intros Hm Hf. destruct m as [a|e0]; simpl.
  - apply Hf.
  - intros [= <-]. by apply Hm.
Qed.

Lemma joinWith_throws (f : Js.value -> Js.completion string) (sep : string)
    (values : list Js.value) (e : Js.error) :
  (forall x e', f x = Js.Throw e' -> Js.languageError e') ->
  Js.joinWith f sep values = Js.Throw e -> Js.languageError e.
Proof.
  intros Hf. revert e.
  induction values as [|x rest IH]; intros e; [discriminate|].
  destruct rest as [|y rest]; [apply Hf|].
  change (Js.joinWith f sep (x :: y :: rest))
    with (match f x with
          | Js.Normal first =>
              match Js.joinWith f sep (y :: rest) with
              | Js.Normal others => Js.Normal (first +:+ sep +:+ others)
              | Js.Throw e => Js.Throw e
              end
          | Js.Throw e => Js.Throw e
          end).
  destruct (f x) as [first|e0] eqn:Hx; [|intros [= <-]; by eapply Hf].
  destruct (Js.joinWith f sep (y :: rest)) as [others|e0]; [discriminate|].
  intros [= <-]. by apply IH.
Qed.

Lemma ToString_throws (stack : nat) (v : Js.value) (e : Js.error) :
  Js.ToString stack v = Js.Throw e -> Js.languageError e.
Proof.
  revert v e. induction stack as [|deeper IH]; intros v e;
    destruct v as [| |[]| | |elems|fields]; simpl; try discriminate.
  - intros [= <-]. by right.
  - destruct (Js.hasOwnProperty "toString" fields); [|discriminate].
    intros [= <-]. by left.
  - apply joinWith_throws. intros x e'.
    destruct x; try discriminate; apply IH.
  - destruct (Js.hasOwnProperty "toString" fields); [|discriminate].
    intros [= <-]. by left.
Qed.

Lemma GetV_throws (v : Js.value) (key : string) (e : Js.error) :
  Js.GetV v key = Js.Throw e -> Js.languageError e.
Proof. destruct v; simpl; try discriminate; intros [= <-]; by left. Qed.

Lemma replace_throws (v : Js.value) (e : Js.error) :
  Js.replace v = Js.Throw e -> Js.languageError e.
Proof. destruct v; simpl; try discriminate; intros [= <-]; by left. Qed.

Lemma Array_join_throws (stack : nat) (v : Js.value) (sep : string)
    (e : Js.error) :
  Js.Array_join stack v sep = Js.Throw e -> Js.languageError e.
Proof.
  destruct v; simpl; try (intros [= <-]; by left).
  apply joinWith_throws. intros x e'.
  destruct x; try discriminate; apply ToString_throws.
Qed.

Lemma defaultCell_throws (stack : nat) (default : Js.value) (e : Js.error) :
  Js.defaultCell stack default = Js.Throw e -> Js.languageError e.
Proof.
  unfold Js.defaultCell. destruct (Js.ToBoolean default); [|discriminate].
  apply bind_throws; [apply ToString_throws | discriminate].
Qed.

Lemma optionsCell_throws (stack : nat) (options : Js.value) (e : Js.error) :
  Js.optionsCell stack options = Js.Throw e -> Js.languageError e.
Proof.
  unfold Js.optionsCell. destruct (Js.ToBoolean options); [|discriminate].
  apply bind_throws; [apply Array_join_throws | discriminate].
Qed.

(** Follows a chain of binds whose steps throw language errors only. *)
Ltac throws_languageError :=
  repeat (intros ?;
          apply bind_throws;
          [ first [ apply GetV_throws | apply ToString_throws
                  | apply replace_throws | apply defaultCell_throws
                  | apply optionsCell_throws ]
          | intros ? ]);
  try (intros ? ?; discriminate).

Lemma row_throws (stack : nat) (prop : Js.value) (e : Js.error) :
  Js.row stack prop = Js.Throw e -> Js.languageError e.
Proof. unfold Js.row. revert e. by throws_languageError. Qed.

Lemma mapM_row_throws (stack : nat) (props : list Js.value) (e : Js.error) :
  mapM (Js.row stack) props = Js.Throw e -> Js.languageError e.
Proof.
  revert e. induction props as [|prop props IH]; intros e; [discriminate|].
  simpl. apply bind_throws; [apply row_throws|].
  intros cells e'. apply bind_throws; [apply IH | discriminate].
Qed.

Lemma Array_map_row_throws (stack : nat) (props : Js.value) (e : Js.error) :
  Js.Array_map props (Js.row stack) = Js.Throw e -> Js.languageError e.
Proof.
  destruct props; simpl; try (intros [= <-]; by left). apply mapM_row_throws.
Qed.

Lemma block_throws (stack : nat) (component : Js.value) (e : Js.error) :
  Js.block stack component = Js.Throw e -> Js.languageError e.
Proof.
  unfold Js.block. revert e. throws_languageError.
  intros thrown. apply bind_throws; [apply Array_map_row_throws|].
  intros rows. by throws_languageError.
Qed.

Lemma forEach_throws (stack : nat) (components : list Js.value)
    (acc : Js.completion string) (e : Js.error) :
  (forall e', acc = Js.Throw e' -> Js.languageError e') ->
  fold_left
    (fun acc component =>
       content ← acc;
       (fun mdxContent component =>
          rendered ← Js.block stack component;
          mret (mdxContent +:+ rendered))
         content component)
    components acc
  = Js.Throw e ->
  Js.languageError e.
Proof.
  revert acc.
  induction components as [|component components IH]; intros acc Hacc.
  - simpl. apply Hacc.
  - simpl. apply IH. intros e'.
    apply bind_throws; [exact Hacc|].
    intros content e''. apply bind_throws; [apply block_throws | discriminate].
Qed.

Lemma generate_throws (stack : nat) (data : Js.value) (e : Js.error) :
  Js.generate stack data = Js.Throw e -> Js.languageError e.
Proof.
  unfold Js.generate. apply bind_throws; [apply GetV_throws|].
  intros components e'. unfold Js.Array_forEach.
  destruct components; try (intros [= <-]; by left).
  apply forEach_throws. discriminate.
Qed.

Lemma isStr_present (key : string) (fields : list (string * Js.value)) :
  Js.isStr (Js.lookupField key fields) = true -> Js.present key fields = true.
Proof. unfold Js.present. by destruct (Js.lookupField key fields). Qed.

Lemma forallb_impl {A : Type} (p q : A -> bool) (l : list A) :
  (forall x, p x = true -> q x = true) ->
  forallb p l = true -> forallb q l = true.
Proof.
  intros H. induction l as [|x l IH]; [done|].
  simpl. intros [Hx Hl]%andb_true_iff. by rewrite (H _ Hx), (IH Hl).
Qed.

Lemma validProperty_hasFields (prop : Js.value) :
  Js.validProperty prop = true -> Js.hasPropertyFields prop = true.
Proof.
  destruct prop as [| | | | |?|fields]; try discriminate.
  unfold Js.validProperty, Js.hasPropertyFields.
  intros [[[[Hname Htype]%andb_true_iff Hdescr]%andb_true_iff
            _]%andb_true_iff _]%andb_true_iff.
  by rewrite !isStr_present.
Qed.

Lemma validComponent_hasFields (component : Js.value) :
  Js.validComponent component = true -> Js.hasComponentFields component = true.
Proof.
  destruct component as [| | | | |?|fields]; try discriminate.
  unfold Js.validComponent, Js.hasComponentFields.
  intros [[[[Hname Hdescr]%andb_true_iff Himport]%andb_true_iff
            Hexample]%andb_true_iff Hprops]%andb_true_iff.
  rewrite !isStr_present by done. simpl.
  destruct (Js.lookupField "props" fields); try discriminate.
  revert Hprops. apply forallb_impl, validProperty_hasFields.
Qed.

Lemma validCatalog_hasFields (data : Js.value) :
  Js.validCatalog data = true -> Js.hasNamedFields data = true.
Proof.
  destruct data as [| | | | |?|fields]; try discriminate.
  unfold Js.validCatalog, Js.hasNamedFields.
  destruct (Js.lookupField "components" fields); try discriminate.
  apply forallb_impl, validComponent_hasFields.
Qed.

(** C7 (amended). Rendering is total on catalogs of the shape of the data
    model: when the named fields are there and hold what the data model
    says (strings for the text fields, a sequence for [props], a literal
    for a default, a sequence of literals for options), the rendering
    completes with a document, whatever the engine's stack; the JSON of
    every catalog of records is of this shape and renders to the document
    of the renderer. The renderer has no error of its own: on any parsed
    JSON at all, what it throws is a type error or a range error of the
    language. *)
Theorem rendering_total_on_valid_catalogs :
  (forall (stack : nat) (data : Js.value),
      Js.validCatalog data = true ->
      exists mdxContent, Js.generate stack data = Js.Normal mdxContent)
  /\ (forall data : Js.value,
         Js.validCatalog data = true -> Js.hasNamedFields data = true)
  /\ (forall (stack : nat) (catalog : Catalog),
         Js.validCatalog (Js.encodeCatalog catalog) = true
         /\ Js.generate stack (Js.encodeCatalog catalog)
            = Js.Normal (render catalog))
  /\ (forall (stack : nat) (data : Js.value) (e : Js.error),
         Js.generate stack data = Js.Throw e -> Js.languageError e).
Proof.
  split; [exact generate_valid|].
  split; [exact validCatalog_hasFields|].
  split; [|exact generate_throws].
  intros stack catalog.
  split; [apply validCatalog_encodeCatalog | apply generate_encodeCatalog].
Qed.

Lemma rendering_total_on_valid_catalogs_witness :
  exists mdxContent, Js.generate 0 sliderCatalog = Js.Normal mdxContent.
Proof.
  apply (proj1 rendering_total_on_valid_catalogs 0 sliderCatalog).
  vm_compute. reflexivity.
Defined.

(** C7, as stated, fails: [numericTypeCatalog] has every named field, and
    its rendering throws a type error, the number that stands for the type
    having no [replace]. *)
Lemma named_fields_do_not_suffice :
  Js.hasNamedFields numericTypeCatalog = true
  /\ (forall stack : nat,
         Js.generate stack numericTypeCatalog = Js.Throw Js.TypeError).
Proof. split; [reflexivity | intros stack; reflexivity]. Qed.

(** ** Off the data model

    What the script does on JSON that is not a catalog of the documented
    shape: falsy defaults are not shown, a value without the method the
    script calls on it raises a type error, and so does an object that
    cannot be turned into a string. *)

Example false_default_is_not_shown :
  Js.row 0 (Js.Obj [("name", Js.Str "isDisabled"); ("type", Js.Str "boolean");
                    ("default", Js.Bool false);
                    ("description", Js.Str "Whether it is disabled.")])
  = Js.Normal "| `isDisabled` | `boolean` |  |  | Whether it is disabled. |".
Proof. reflexivity. Qed.

Example zero_default_is_not_shown :
  Js.row 0 (Js.Obj [("name", Js.Str "minValue"); ("type", Js.Str "number");
                    ("default", Js.Num "0" false);
                    ("description", Js.Str "The least value.")])
  = Js.Normal "| `minValue` | `number` |  |  | The least value. |".
Proof. reflexivity. Qed.

Example number_default_is_shown :
  Js.row 0 (Js.Obj [("name", Js.Str "maxValue"); ("type", Js.Str "number");
                    ("default", Js.Num "1e+21" true);
                    ("description", Js.Str "The greatest value.")])
  = Js.Normal "| `maxValue` | `number` | `1e+21` |  | The greatest value. |".
Proof. reflexivity. Qed.

Example missing_type_throws :
  Js.row 0 (Js.Obj [("name", Js.Str "size"); ("description", Js.Str "The size.")])
  = Js.Throw Js.TypeError.
Proof. reflexivity. Qed.

Example options_string_throws :
  Js.row 0 (Js.Obj [("name", Js.Str "size"); ("type", Js.Str "string");
                    ("options", Js.Str "sm, md, lg");
                    ("description", Js.Str "The size.")])
  = Js.Throw Js.TypeError.
Proof. reflexivity. Qed.

Example missing_props_throws :
  Js.block 0 (Js.Obj [("name", Js.Str "Spacer"); ("description", Js.Str "x");
                      ("import", Js.Str "y"); ("example", Js.Str "z")])
  = Js.Throw Js.TypeError.
Proof. reflexivity. Qed.

Example missing_description_is_undefined :
  Js.row 0 (Js.Obj [("name", Js.Str "size"); ("type", Js.Str "string")])
  = Js.Normal "| `size` | `string` |  |  | undefined |".
Proof. reflexivity. Qed.

Example own_toString_throws :
  Js.block 0 (Js.Obj [("name", Js.Obj [("toString", Js.Num "1" true)]);
                      ("props", Js.Arr [])])
  = Js.Throw Js.TypeError.
Proof. reflexivity. Qed.

Example nested_array_throws_beyond_the_stack :
  Js.row 2 (Js.Obj [("name", Js.Arr [Js.Arr [Js.Arr [Js.Str "deep"]]]);
                    ("type", Js.Str "string")])
  = Js.Throw Js.RangeError
  /\ Js.row 3 (Js.Obj [("name", Js.Arr [Js.Arr [Js.Arr [Js.Str "deep"]]]);
                       ("type", Js.Str "string")])
     = Js.Normal "| `deep` | `string` |  |  | undefined |".
Proof. split; reflexivity. Qed.

(** ** The document depends on the catalog alone *)

Lemma row_same (stack : nat) (prop1 prop2 : Js.value) :
  Js.sameProperty prop1 prop2 -> Js.row stack prop1 = Js.row stack prop2.
Proof.
  unfold Js.sameProperty, Js.sameFields. rewrite !Forall_cons.
  intros (Hname & Htype & Hdefault & Hoptions & Hdescr & _).
  unfold Js.row. by rewrite Hname, Htype, Hdefault, Hoptions, Hdescr.
Qed.

Lemma mapM_row_same (stack : nat) (props1 props2 : list Js.value) :
  Forall2 Js.sameProperty props1 props2 ->
  mapM (Js.row stack) props1 = mapM (Js.row stack) props2.
Proof.
  induction 1 as [|prop1 prop2 props1 props2 Hprop _ IH]; [reflexivity|].
  simpl. by rewrite (row_same _ _ _ Hprop), IH.
Qed.

Lemma Array_map_same (stack : nat) (props1 props2 : Js.completion Js.value) :
  Js.sameArray Js.sameProperty props1 props2 ->
  (props ← props1; Js.Array_map props (Js.row stack))
  = (props ← props2; Js.Array_map props (Js.row stack)).
Proof.
  destruct props1 as [[]|], props2 as [[]|]; simpl;
    try (intros H; by simplify_eq).
  apply mapM_row_same.
Qed.

Lemma block_same (stack : nat) (component1 component2 : Js.value) :
  Js.sameComponent component1 component2 ->
  Js.block stack component1 = Js.block stack component2.
Proof.
  unfold Js.sameComponent, Js.sameFields. rewrite !Forall_cons.
  intros [(Hname & Hdescr & Himport & Hexample & _) Hprops].
  pose proof (Array_map_same stack _ _ Hprops) as Hrows.
  unfold Js.block. rewrite Hname, Hdescr, Himport, Hexample.
  destruct (Js.GetV component2 "name") as [name|]; [|reflexivity]. simpl.
  destruct (Js.ToString stack name) as [nameText|]; [|reflexivity]. simpl.
  destruct (Js.GetV component2 "description") as [description|];
    [|reflexivity]. simpl.
  destruct (Js.ToString stack description) as [descriptionText|];
    [|reflexivity]. simpl.
  destruct (Js.GetV component2 "import") as [import|]; [|reflexivity]. simpl.
  destruct (Js.ToString stack import) as [importText|]; [|reflexivity]. simpl.
  destruct (Js.GetV component1 "props") as [props1|e1],
           (Js.GetV component2 "props") as [props2|e2]; simpl in *.
  - by rewrite Hrows.
  - by rewrite Hrows.
  - by rewrite <- Hrows.
  - by injection Hrows as ->.
Qed.

Lemma forEach_same (stack : nat) (components1 components2 : list Js.value)
    (acc : Js.completion string) :
  Forall2 Js.sameComponent components1 components2 ->
  fold_left
    (fun acc component =>
       content ← acc;
       (fun mdxContent component =>
          rendered ← Js.block stack component;
          mret (mdxContent +:+ rendered))
         content component)
    components1 acc
  = fold_left
      (fun acc component =>
         content ← acc;
         (fun mdxContent component =>
            rendered ← Js.block stack component;
            mret (mdxContent +:+ rendered))
           content component)
      components2 acc.
Proof.
  intros H. revert acc.
  induction H as [|component1 component2 components1 components2 Hc _ IH];
    intros acc; [reflexivity|].
  simpl. by rewrite (block_same _ _ _ Hc), IH.
Qed.

Lemma generate_same (stack : nat) (data1 data2 : Js.value) :
  Js.sameCatalog data1 data2 ->
  Js.generate stack data1 = Js.generate stack data2.
Proof.
  unfold Js.sameCatalog, Js.generate.
  destruct (Js.GetV data1 "components") as [[]|],
           (Js.GetV data2 "components") as [[]|]; simpl;
    try (intros H; by simplify_eq).
  apply forEach_same.
Qed.

(** C8. Rendering is deterministic, the document being a function of the
    catalog alone: two parsed values that stand for the same catalog, with
    the same components, text fields and properties, whatever the order
    of their keys and whatever other keys they hold, render to the same
    bytes or fail with the same error; and a value that stands for a
    catalog of records renders to the document of that catalog. The
    template and the snippet language are fixed in the renderer and no
    other input enters. *)
Theorem rendering_deterministic :
  (forall (stack : nat) (data1 data2 : Js.value),
      Js.sameCatalog data1 data2 ->
      Js.generate stack data1 = Js.generate stack data2)
  /\ (forall (stack : nat) (catalog : Catalog) (data : Js.value),
         Js.sameCatalog (Js.encodeCatalog catalog) data ->
         Js.generate stack data = Js.Normal (render catalog))
  /\ Js.sameCatalog (Js.encodeCatalog [badge]) badgeVariant
  /\ Js.encodeCatalog [badge] <> badgeVariant.
Proof.
  split; [exact generate_same|]. split; [|split].
  - intros stack catalog data Hsame.
    by rewrite <- (generate_same _ _ _ Hsame), generate_encodeCatalog.
  - unfold Js.sameCatalog. simpl. repeat constructor.
  - discriminate.
Qed.

Lemma rendering_deterministic_witness :
  Js.generate 0 badgeVariant = Js.Normal (render [badge])
  /\ Js.generate 0 badgeVariant = Js.generate 0 (Js.encodeCatalog [badge]).
Proof.
  destruct rendering_deterministic as (Hsame & Hrender & Hbadge & _).
  split.
  - apply (Hrender 0 [badge] badgeVariant Hbadge).
  - symmetry. apply (Hsame 0 (Js.encodeCatalog [badge]) badgeVariant Hbadge).
Defined.

(** * Further properties of the script *)

(** ** The escaping, once more *)

Lemma replaceAll_append (c : ascii) (newSubstr a b : string) :
  replaceAll c newSubstr (a +:+ b)
  = replaceAll c newSubstr a +:+ replaceAll c newSubstr b.
Proof.
  induction a as [|x a IH]; [reflexivity|].
  simpl. rewrite IH. destruct (Ascii.eqb x c); [|reflexivity].
  by rewrite append_assoc.
Qed.

Lemma escapePipes_head (type : string) (c : ascii) (rest : string) :
  escapePipes type = String c rest -> Ascii.eqb c pipe = false.
Proof.
  destruct type as [|a type]; [discriminate|].
  destruct (Ascii.eqb a pipe) eqn:E.
  - apply Ascii.eqb_eq in E. subst a. rewrite escapePipes_pipe.
    by intros [= <- _].
  - rewrite escapePipes_other by done. by intros [= <- _].
Qed.

Lemma unescapePipes_cons (c : ascii) (s : string) :
  Ascii.eqb c pipe = false ->
  (forall c' rest, s = String c' rest -> Ascii.eqb c' pipe = false) ->
  unescapePipes (String c s) = String c (unescapePipes s).
Proof.
  intros Hc Hs. destruct s as [|c' rest]; [reflexivity|].
  simpl. rewrite (Hs c' rest eq_refl). by rewrite andb_false_r.
Qed.

Lemma unescapePipes_escapePipes (type : string) :
  unescapePipes (escapePipes type) = type.
Proof.
  induction type as [|c rest IH]; [reflexivity|].
  destruct (Ascii.eqb c pipe) eqn:E.
  - apply Ascii.eqb_eq in E. subst c. rewrite escapePipes_pipe.
    change (unescapePipes (String backslash (String pipe (escapePipes rest))))
      with (String pipe (unescapePipes (escapePipes rest))).
    by rewrite IH.
  - rewrite escapePipes_other by done.
    rewrite unescapePipes_cons, IH; [reflexivity | done |].
    intros c' rest'. apply escapePipes_head.
Qed.

(** X1. The escaping of a concatenation is the concatenation of the
    escapings: the global [replace] looks at each [|] on its own, so the
    escaped form of a type does not depend on how the type was put
    together. *)
Theorem escapePipes_append :
  forall a b : string,
    escapePipes (a +:+ b) = escapePipes a +:+ escapePipes b.
Proof. intros a b. apply replaceAll_append. Qed.

Lemma append_char_inj (c : ascii) (s t : string) :
  s +:+ String c "" = t +:+ String c "" -> s = t.
Proof.
  revert t. induction s as [|x s IH]; intros [|y t]; simpl; intros H.
  - reflexivity.
  - destruct t; discriminate.
  - destruct s; discriminate.
  - injection H as -> H. f_equal. by apply IH.
Qed.

(** X2. The escaping loses nothing: reading [\|] back as [|] returns the
    type, also for a type that held backslashes of its own, so two types
    with the same escaped form, and two records with the same Type cell,
    have the same type. *)
Theorem escapePipes_round_trip :
  (forall type : string, unescapePipes (escapePipes type) = type)
  /\ (forall type1 type2 : string,
         escapePipes type1 = escapePipes type2 -> type1 = type2)
  /\ (forall prop1 prop2 : PropertyRecord,
         rowCells prop1 !! 1 = rowCells prop2 !! 1 ->
         prop_type prop1 = prop_type prop2).
Proof.
  assert (Hinj : forall type1 type2 : string,
             escapePipes type1 = escapePipes type2 -> type1 = type2).
  { intros type1 type2 H.
    rewrite <- (unescapePipes_escapePipes type1),
            <- (unescapePipes_escapePipes type2).
    by rewrite H. }
  split; [exact unescapePipes_escapePipes | split; [exact Hinj|]].
  intros prop1 prop2. simpl. unfold code. intros [= H].
  by apply Hinj, (append_char_inj "`").
Qed.

Lemma escapePipes_round_trip_witness :
  "a\|b" = "a\|b".
Proof.
  apply (proj1 (proj2 escapePipes_round_trip) "a\|b" "a\|b"). reflexivity.
Defined.

(** ** Counting the columns of a row *)

Lemma countCuts_separator (s t : string) (e : bool) :
  countCuts e (s +:+ "`, `" +:+ t) = countCuts e s + countCuts false t.
Proof.
  change (s +:+ "`, `" +:+ t) with (s +:+ String "`"%char (", `" +:+ t)).
  by rewrite countCuts_ordinary.
Qed.

Lemma countCuts_marker (s : string) (e : bool) :
  countCuts e (s +:+ "`") = countCuts e s.
Proof. rewrite (countCuts_ordinary "`") by reflexivity. simpl. lia. Qed.

Lemma countCuts_join_code (options : list string) :
  countCuts false (join "`, `" options +:+ "`")
  = sum_list (map (countCuts false) options).
Proof.
  induction options as [|o rest IH]; [reflexivity|].
  destruct rest as [|o' rest].
  - change (join "`, `" [o]) with o. rewrite countCuts_marker. simpl. lia.
  - rewrite join_cons, !append_assoc, countCuts_separator, IH. reflexivity.
Qed.

Lemma countCuts_defaultCell (prop : PropertyRecord) :
  countCuts false (" " +:+ defaultCell prop)
  = from_option (countCuts false) 0 (prop_default prop).
Proof.
  unfold defaultCell. destruct (prop_default prop) as [d|]; [|reflexivity].
  destruct (truthy d) eqn:E.
  - simpl. apply countCuts_marker.
  - apply truthy_false in E. by subst d.
Qed.

Lemma countCuts_optionsCell (prop : PropertyRecord) :
  countCuts false (" " +:+ optionsCell prop)
  = from_option (fun options => sum_list (map (countCuts false) options)) 0
                (prop_options prop).
Proof.
  unfold optionsCell. destruct (prop_options prop) as [os|]; [|reflexivity].
  simpl. apply countCuts_join_code.
Qed.

(** X3. A row has five columns and one more for each unescaped [|] in the
    name, in the default that is shown, in the options and in the
    description; the [|] of the type add none. The record [pipedFields],
    with six such [|], renders eleven columns. *)
Theorem columns_are_five_plus_field_cuts :
  (forall prop : PropertyRecord,
      length (logicalColumns (renderRow prop)) = 5 + fieldCuts prop)
  /\ length (logicalColumns (renderRow pipedFields)) = 11.
Proof.
  split; [|reflexivity].
  intros prop. rewrite count_logicalColumns. unfold fieldCuts.
  rewrite countCuts_defaultCell, countCuts_optionsCell.
  change (countCuts false (" `" +:+ prop_name prop +:+ "`"))
    with (countCuts false (prop_name prop +:+ "`")).
  rewrite countCuts_marker.
  change (countCuts false (" " +:+ prop_description prop))
    with (countCuts false (prop_description prop)).
  lia.
Qed.

(** ** The lines of a table *)

Lemma noNewline_append (a b : string) :
  noNewline (a +:+ b) = noNewline a && noNewline b.
Proof.
  induction a as [|x a IH]; [reflexivity|].
  simpl. by rewrite IH, andb_assoc.
Qed.

Lemma noNewline_escapePipes (type : string) :
  noNewline (escapePipes type) = noNewline type.
Proof.
  induction type as [|c rest IH]; [reflexivity|].
  destruct (Ascii.eqb c pipe) eqn:E.
  - apply Ascii.eqb_eq in E. subst c. rewrite escapePipes_pipe. simpl. apply IH.
  - rewrite escapePipes_other by done. simpl. by rewrite IH.
Qed.

Lemma noNewline_join (sep : string) (strings : list string) :
  noNewline sep = true ->
  noNewline (join sep strings) = forallb noNewline strings.
Proof.
  intros Hsep. induction strings as [|x rest IH]; [reflexivity|].
  destruct rest as [|y rest].
  - simpl. by rewrite andb_true_r.
  - rewrite join_cons, !noNewline_append, Hsep, IH. reflexivity.
Qed.

Lemma noNewline_defaultCell (prop : PropertyRecord) :
  noNewline (defaultCell prop) = from_option noNewline true (prop_default prop).
Proof.
  unfold defaultCell. destruct (prop_default prop) as [d|]; [|reflexivity].
  destruct (truthy d) eqn:E.
  - simpl. rewrite noNewline_append. apply andb_true_r.
  - apply truthy_false in E. by subst d.
Qed.

Lemma noNewline_optionsCell (prop : PropertyRecord) :
  noNewline (optionsCell prop)
  = from_option (forallb noNewline) true (prop_options prop).
Proof.
  unfold optionsCell. destruct (prop_options prop) as [os|]; [|reflexivity].
  simpl. rewrite noNewline_append, noNewline_join by reflexivity.
  apply andb_true_r.
Qed.

(** A row is one line exactly when the fields of its record are. *)
Lemma noNewline_renderRow (prop : PropertyRecord) :
  noNewline (renderRow prop) = fieldsOneLine prop.
Proof.
  unfold renderRow, fieldsOneLine.
  rewrite !noNewline_append, noNewline_escapePipes,
    noNewline_defaultCell, noNewline_optionsCell.
  simpl. by rewrite !andb_true_r, !andb_assoc.
Qed.

Lemma splitLines_one_line (s : string) :
  noNewline s = true -> splitLines s = [s].
Proof.
  induction s as [|c s IH]; [reflexivity|].
  simpl. intros [Hc Hs]%andb_true_iff. apply negb_true_iff in Hc.
  by rewrite Hc, IH.
Qed.

Lemma splitLines_cons (c : ascii) (rest : string) :
  splitLines (String c rest)
  = if Ascii.eqb c newline then EmptyString :: splitLines rest
    else pushChar c (splitLines rest).
Proof. reflexivity. Qed.

Lemma splitLines_line (s t : string) :
  noNewline s = true -> splitLines (s +:+ nl +:+ t) = s :: splitLines t.
Proof.
  induction s as [|c s IH]; [reflexivity|].
  intros H. simpl in H. apply andb_true_iff in H as [Hc Hs].
  apply negb_true_iff in Hc.
  change (String c s +:+ nl +:+ t) with (String c (s +:+ nl +:+ t)).
  by rewrite splitLines_cons, Hc, (IH Hs).
Qed.

Lemma splitLines_join (rows : list string) :
  rows <> [] -> forallb noNewline rows = true ->
  splitLines (join nl rows) = rows.
Proof.
  induction rows as [|row rest IH]; [done|].
  intros _. simpl forallb. intros [Hrow Hrest]%andb_true_iff.
  destruct rest as [|row' rest].
  - by apply splitLines_one_line.
  - rewrite join_cons, splitLines_line by done. f_equal. by apply IH.
Qed.

Lemma forallb_map {A B : Type} (f : A -> B) (p : B -> bool) (l : list A) :
  forallb p (map f l) = forallb (fun x => p (f x)) l.
Proof. induction l as [|x l IH]; [reflexivity|]. simpl. by rewrite IH. Qed.

Lemma forallb_ext_eq {A : Type} (p q : A -> bool) (l : list A) :
  (forall x, p x = q x) -> forallb p l = forallb q l.
Proof.
  intros H. induction l as [|x l IH]; [reflexivity|]. simpl. by rewrite H, IH.
Qed.

Lemma tableRows_one_line (component : ComponentRecord) :
  forallb noNewline (tableRows component)
  = forallb fieldsOneLine (component_props component).
Proof.
  unfold tableRows. rewrite forallb_map.
  apply forallb_ext_eq, noNewline_renderRow.
Qed.

Lemma splitLines_renderTable (component : ComponentRecord) :
  forallb fieldsOneLine (component_props component) = true ->
  splitLines (renderTable component)
  = "| Name | Type | Default | Options | Description |"
    :: "| --- | --- | --- | --- | --- |"
    :: match component_props component with
       | [] => [""]
       | props => map renderRow props
       end.
Proof.
  intros Hlines. rewrite <- tableRows_one_line in Hlines.
  unfold renderTable, tableHeader. rewrite !append_assoc.
  rewrite !splitLines_line by reflexivity. do 2 f_equal.
  unfold tableRows in *.
  destruct (component_props component) as [|prop props]; [reflexivity|].
  by apply splitLines_join.
Qed.

Lemma Forall_five_columns (props : list PropertyRecord) :
  Forall (fun line => length (logicalColumns line) = 5) (map renderRow props)
  <-> forallb otherFieldsClean props = true.
Proof.
  induction props as [|prop props IH]; [by split; [|constructor]|].
  simpl. rewrite Forall_cons, andb_true_iff, IH, five_columns_iff_clean.
  reflexivity.
Qed.

(** X4. When no field of the properties holds a line break, the table of
    a block, cut into lines, is the header row, the delimiter row and one
    line per property, the rows in the order of the properties; without
    properties the two header lines are followed by one empty line. *)
Theorem table_lines_are_rows :
  forall component : ComponentRecord,
    forallb fieldsOneLine (component_props component) = true ->
    splitLines (renderTable component)
    = "| Name | Type | Default | Options | Description |"
      :: "| --- | --- | --- | --- | --- |"
      :: match component_props component with
         | [] => [""]
         | props => map renderRow props
         end
    /\ length (splitLines (renderTable component))
       = 2 + Nat.max 1 (length (component_props component)).
Proof.
  intros component Hlines. rewrite (splitLines_renderTable _ Hlines).
  split; [reflexivity|].
  destruct (component_props component) as [|prop props]; [reflexivity|].
  simpl. rewrite length_map. lia.
Qed.

Lemma table_lines_are_rows_witness :
  splitLines (renderTable badge)
  = [ "| Name | Type | Default | Options | Description |";
      "| --- | --- | --- | --- | --- |";
      "| `color` | `default \| primary` | `default` | `default`, `primary` | d |" ].
Proof. apply (table_lines_are_rows badge). reflexivity. Defined.

(** X5. A table whose properties hold no line break is well formed, every
    line of it having five columns, exactly when no property has an
    unescaped [|] outside its type. *)
Theorem table_well_formed_iff_fields_clean :
  forall component : ComponentRecord,
    component_props component <> [] ->
    forallb fieldsOneLine (component_props component) = true ->
    (Forall (fun line => length (logicalColumns line) = 5)
            (splitLines (renderTable component))
     <-> forallb otherFieldsClean (component_props component) = true).
Proof.
  intros component Hprops Hlines.
  rewrite (splitLines_renderTable _ Hlines).
  destruct (component_props component) as [|prop props] eqn:E; [done|].
  rewrite <- E. clear E Hprops Hlines.
  rewrite !Forall_cons, Forall_five_columns.
  split; [tauto|]. by repeat split.
Qed.

Lemma table_well_formed_iff_fields_clean_witness :
  Forall (fun line => length (logicalColumns line) = 5)
         (splitLines (renderTable badge)).
Proof.
  apply (table_well_formed_iff_fields_clean badge);
    [discriminate | reflexivity | reflexivity].
Defined.

(** ** What the script can render *)

Lemma completesWhen_bind {A B : Type} (ok1 ok2 : bool) (m : Js.completion A)
    (f : A -> Js.completion B) :
  completesWhen ok1 m -> (forall a, completesWhen ok2 (f a)) ->
  completesWhen (ok1 && ok2) (m ≫= f).
Proof.
  unfold completesWhen. intros Hm Hf.
  destruct ok1; destruct Hm as [x ->]; simpl; [apply Hf | by eexists].
Qed.

Lemma completesWhen_bind_ret {A B : Type} (ok : bool) (m : Js.completion A)
    (f : A -> B) :
  completesWhen ok m -> completesWhen ok (m ≫= fun a => mret (f a)).
Proof.
  unfold completesWhen. intros Hm.
  destruct ok; destruct Hm as [x ->]; simpl; by eexists.
Qed.

Lemma completesWhen_get {A : Type} (ok : bool)
    (fields : list (string * Js.value)) (key : string)
    (f : Js.value -> Js.completion A) :
  completesWhen ok (f (Js.lookupField key fields)) ->
  completesWhen ok (Js.GetV (Js.Obj fields) key ≫= f).
Proof. intros H. exact H. Qed.

Lemma joinWith_completesWhen (f : Js.value -> Js.completion string)
    (p : Js.value -> bool) (sep : string) (values : list Js.value) :
  (forall x, completesWhen (p x) (f x)) ->
  completesWhen (forallb p values) (Js.joinWith f sep values).
Proof.
  intros Hf. induction values as [|x rest IH]; [by eexists|].
  destruct rest as [|y rest].
  - simpl. rewrite andb_true_r. apply Hf.
  - change (Js.joinWith f sep (x :: y :: rest))
      with (f x ≫= fun first =>
            Js.joinWith f sep (y :: rest) ≫= fun others =>
            mret (first +:+ sep +:+ others)).
    change (forallb p (x :: y :: rest)) with (p x && forallb p (y :: rest)).
    apply completesWhen_bind; [apply Hf | intros first].
    by apply completesWhen_bind_ret.
Qed.

(** [ToString] completes exactly on the printable values. *)
Lemma ToString_completesWhen (stack : nat) (v : Js.value) :
  completesWhen (printable stack v) (Js.ToString stack v).
Proof.
  revert v. induction stack as [|deeper IH]; intros v;
    destruct v as [| |[]| | |elems|fields]; simpl; try (by eexists).
  - destruct (Js.hasOwnProperty "toString" fields); by eexists.
  - apply joinWith_completesWhen. intros x.
    destruct x; try (by eexists); apply IH.
  - destruct (Js.hasOwnProperty "toString" fields); by eexists.
Qed.

Lemma elemToString_completesWhen (stack : nat) (x : Js.value) :
  completesWhen (printableElem stack x) (Js.elemToString stack x).
Proof.
  destruct x; try (by eexists); apply ToString_completesWhen.
Qed.

Lemma replace_completesWhen (v : Js.value) :
  completesWhen (Js.isStr v) (Js.replace v).
Proof. destruct v; by eexists. Qed.

Lemma defaultCell_completesWhen (stack : nat) (default : Js.value) :
  completesWhen (negb (Js.ToBoolean default) || printable stack default)
                (Js.defaultCell stack default).
Proof.
  unfold Js.defaultCell. destruct (Js.ToBoolean default); simpl;
    [|by eexists].
  apply completesWhen_bind_ret, ToString_completesWhen.
Qed.

Lemma optionsCell_completesWhen (stack : nat) (options : Js.value) :
  completesWhen
    (negb (Js.ToBoolean options)
     || match options with
        | Js.Arr values => forallb (printableElem stack) values
        | _ => false
        end)
    (Js.optionsCell stack options).
Proof.
  unfold Js.optionsCell. destruct (Js.ToBoolean options); simpl;
    [|by eexists].
  apply completesWhen_bind_ret. unfold Js.Array_join.
  destruct options; try (by eexists).
  apply joinWith_completesWhen, elemToString_completesWhen.
Qed.

Lemma row_completesWhen (stack : nat) (prop : Js.value) :
  completesWhen (renderableProperty stack prop) (Js.row stack prop).
Proof.
  destruct prop as [| | | | |?|fields]; try (by eexists).
  unfold renderableProperty, Js.row. rewrite <- !andb_assoc.
  apply completesWhen_get.
  apply completesWhen_bind; [apply ToString_completesWhen | intros nameText].
  apply completesWhen_get.
  apply completesWhen_bind; [apply replace_completesWhen | intros escaped].
  apply completesWhen_get.
  apply completesWhen_bind;
    [apply defaultCell_completesWhen | intros defaultText].
  apply completesWhen_get.
  apply completesWhen_bind;
    [apply optionsCell_completesWhen | intros optionsText].
  apply completesWhen_get.
  apply completesWhen_bind_ret, ToString_completesWhen.
Qed.

Lemma mapM_completesWhen {A B : Type} (f : A -> Js.completion B)
    (p : A -> bool) (l : list A) :
  (forall x, completesWhen (p x) (f x)) ->
  completesWhen (forallb p l) (mapM f l).
Proof.
  intros Hf. induction l as [|x l IH]; [by eexists|].
  simpl. apply completesWhen_bind; [apply Hf | intros y].
  by apply completesWhen_bind_ret.
Qed.

Lemma block_completesWhen (stack : nat) (component : Js.value) :
  completesWhen (renderableComponent stack component)
                (Js.block stack component).
Proof.
  destruct component as [| | | | |?|fields]; try (by eexists).
  unfold renderableComponent, Js.block. rewrite <- !andb_assoc.
  apply completesWhen_get.
  destruct (printable stack (Js.lookupField "name" fields)) eqn:Hname.
  2: { pose proof (ToString_completesWhen stack (Js.lookupField "name" fields)) as H.
       rewrite Hname in H. destruct H as [e ->]. by eexists. }
  pose proof (ToString_completesWhen stack (Js.lookupField "name" fields)) as H.
  rewrite Hname in H. destruct H as [nameText HnameText].
  rewrite HnameText. simpl. rewrite HnameText. simpl.
  apply completesWhen_bind; [apply ToString_completesWhen | intros descrText].
  apply completesWhen_bind; [apply ToString_completesWhen | intros importText].
  apply completesWhen_bind.
  - unfold Js.Array_map.
    destruct (Js.lookupField "props" fields); try (by eexists).
    apply mapM_completesWhen, row_completesWhen.
  - intros rows. apply completesWhen_bind_ret, ToString_completesWhen.
Qed.

Lemma forEach_thrown (stack : nat) (components : list Js.value) (e : Js.error) :
  fold_left
    (fun acc component =>
       content ← acc;
       (fun mdxContent component =>
          rendered ← Js.block stack component;
          mret (mdxContent +:+ rendered))
         content component)
    components (Js.Throw e)
  = Js.Throw e.
Proof.
  induction components as [|component components IH]; [reflexivity | apply IH].
Qed.

Lemma forEach_completesWhen (stack : nat) (components : list Js.value)
    (mdxContent : string) :
  completesWhen
    (forallb (renderableComponent stack) components)
    (fold_left
       (fun acc component =>
          content ← acc;
          (fun mdxContent component =>
             rendered ← Js.block stack component;
             mret (mdxContent +:+ rendered))
            content component)
       components (Js.Normal mdxContent)).
Proof.
  revert mdxContent.
  induction components as [|component components IH]; intros mdxContent;
    [by eexists|].
  simpl. pose proof (block_completesWhen stack component) as H.
  destruct (renderableComponent stack component); destruct H as [? ->]; simpl.
  - apply IH.
  - rewrite forEach_thrown. by eexists.
Qed.

Lemma generate_completesWhen (stack : nat) (data : Js.value) :
  completesWhen (renderable stack data) (Js.generate stack data).
Proof.
  destruct data as [| | | | |?|fields]; try (by eexists).
  unfold renderable, Js.generate. apply completesWhen_get.
  unfold Js.Array_forEach.
  destruct (Js.lookupField "components" fields); try (by eexists).
  apply forEach_completesWhen.
Qed.

(** X6. The rendering completes exactly on the values the script can
    render: an object whose [components] is an array of objects with
    printable [name], [description], [import] and [example] and an array
    [props] of objects that have a printable name and description, a
    string for their [type], a default that is falsy or printable and
    options that are falsy or an array of printable values. On every
    other value it throws. A missing text field or default is no error,
    and every catalog of the shape of the data model can be rendered. *)
Theorem generate_completes_iff_renderable :
  forall (stack : nat) (data : Js.value),
    ((exists mdxContent, Js.generate stack data = Js.Normal mdxContent)
     <-> renderable stack data = true)
    /\ ((exists e, Js.generate stack data = Js.Throw e)
        <-> renderable stack data = false)
    /\ (Js.validCatalog data = true -> renderable stack data = true).
Proof.
  intros stack data.
  pose proof (generate_completesWhen stack data) as H.
  unfold completesWhen in H.
  destruct (renderable stack data) eqn:E; destruct H as [x Hx].
  - split; [|split]; [by split; [|eexists] | | done].
    split; [|done]. intros [e He]. rewrite Hx in He. discriminate.
  - split; [|split]; [| by split; [|eexists] |].
    + split; [|done]. intros [mdx Hmdx]. rewrite Hx in Hmdx. discriminate.
    + intros Hvalid. destruct (generate_valid stack data Hvalid) as [mdx Hmdx].
      rewrite Hx in Hmdx. discriminate.
Qed.

Lemma generate_completes_iff_renderable_witness :
  (exists mdxContent,
      Js.generate 1
        (Js.Obj [("components",
                  Js.Arr [Js.Obj [("name", Js.Arr [Js.Str "Radio"; Js.Str "Group"]);
                                  ("props",
                                   Js.Arr [Js.Obj [("type", Js.Str "string")]])]])])
      = Js.Normal mdxContent)
  /\ (exists e,
         Js.generate 1
           (Js.Obj [("components",
                     Js.Arr [Js.Obj [("name", Js.Obj [("toString", Js.Null)]);
                                     ("props", Js.Arr [])]])])
         = Js.Throw e).
Proof.
  split.
  - apply (proj1 (generate_completes_iff_renderable 1 _)). reflexivity.
  - apply (proj1 (proj2 (generate_completes_iff_renderable 1 _))). reflexivity.
Defined.

(** ** What a run does to the world *)

Lemma script_outcome (JSON_parse : string -> Js.completion Js.value)
    (stack : nat) (w : Js.world) :
  Js.script JSON_parse stack w
  = match Js.files w !! "full.json" with
    | None => Js.Throw (Js.ENOENT "full.json")
    | Some text =>
        match JSON_parse text with
        | Js.Throw e => Js.Throw e
        | Js.Normal data =>
            match Js.generate stack data with
            | Js.Throw e => Js.Throw e
            | Js.Normal mdxContent =>
                Js.Normal
                  {| Js.files :=
                       <["heroui-prompt-guide.md" := mdxContent]> (Js.files w);
                     Js.console :=
                       Js.console w
                       ++ ["Successfully created heroui-prompt-guide.md"] |}
            end
        end
    end.
Proof.
  unfold Js.script, Js.readFileSync.
  destruct (Js.files w !! "full.json") as [text|]; [|reflexivity]. simpl.
  destruct (JSON_parse text) as [data|]; [|reflexivity]. simpl.
  by destruct (Js.generate stack data).
Qed.

(** X8. The guide is overwritten, not appended to: whatever
    [heroui-prompt-guide.md] held before the run, a run that completes
    leaves the same files as a run from a world without that content. *)
Theorem script_overwrites_the_guide :
  forall (JSON_parse : string -> Js.completion Js.value) (stack : nat)
         (w w' : Js.world) (previous : string),
    Js.script JSON_parse stack w = Js.Normal w' ->
    exists w'',
      Js.script JSON_parse stack
        (Js.writeFileSync "heroui-prompt-guide.md" previous w)
      = Js.Normal w''
      /\ Js.files w'' = Js.files w'
      /\ Js.console w'' = Js.console w'.
Proof.
  intros JSON_parse stack w w' previous. rewrite !script_outcome. simpl.
  rewrite lookup_insert_ne by discriminate.
  destruct (Js.files w !! "full.json") as [text|]; [|discriminate].
  destruct (JSON_parse text) as [data|]; [|discriminate].
  destruct (Js.generate stack data) as [mdxContent|]; [|discriminate].
  intros [= <-]. eexists. split; [reflexivity|]. simpl.
  split; [apply insert_insert_eq | reflexivity].
Qed.

Lemma script_overwrites_the_guide_witness :
  exists w'',
    Js.script parseEmptyCatalog 0 staleWorld = Js.Normal w''
    /\ Js.files w'' = Js.files worldAfterRun
    /\ Js.console w'' = Js.console worldAfterRun.
Proof.
  apply (script_overwrites_the_guide parseEmptyCatalog 0 freshWorld
           worldAfterRun "an older guide").
  vm_compute. reflexivity.
Defined.

(** ** The data model covers the documented JSON *)

Lemma truthy_literalText (v : Js.value) :
  Js.isLiteral v = true -> Js.ToBoolean v = true ->
  truthy (literalText v) = true.
Proof. by destruct v as [| |[]| | | |]. Qed.

Lemma defaultCell_decodeProperty (stack : nat) (prop : Js.value) :
  (Js.ToBoolean (field prop "default") = true ->
   Js.isLiteral (field prop "default") = true) ->
  Js.defaultCell stack (field prop "default")
  = Js.Normal (defaultCell (decodeProperty prop)).
Proof.
  intros Hdefault. rewrite (defaultCell_valid _ _ Hdefault).
  unfold defaultCell, decodeProperty. simpl.
  destruct (Js.ToBoolean (field prop "default")) eqn:E; [|reflexivity].
  by rewrite truthy_literalText by auto.
Qed.

Lemma optionsCell_decodeProperty (stack : nat) (prop : Js.value) :
  match field prop "options" with
  | Js.Undefined => true
  | Js.Arr options => forallb Js.isLiteral options
  | _ => false
  end = true ->
  Js.optionsCell stack (field prop "options")
  = Js.Normal (optionsCell (decodeProperty prop)).
Proof.
  intros Hoptions. rewrite (optionsCell_valid _ _ Hoptions).
  unfold optionsCell, decodeProperty. simpl.
  by destruct (field prop "options").
Qed.

Lemma row_decodeProperty (stack : nat) (prop : Js.value) :
  Js.validProperty prop = true ->
  Js.row stack prop = Js.Normal (renderRow (decodeProperty prop)).
Proof.
  destruct prop as [| | | | |?|fields]; try discriminate.
  unfold Js.validProperty.
  intros [[[[Hname Htype]%andb_true_iff Hdescr]%andb_true_iff
            Hdefault]%andb_true_iff Hoptions]%andb_true_iff.
  pose proof (defaultCell_decodeProperty stack (Js.Obj fields)
                (literal_default _ Hdefault)) as Hd.
  pose proof (optionsCell_decodeProperty stack (Js.Obj fields) Hoptions) as Ho.
  unfold Js.row, renderRow. simpl in *.
  rewrite (ToString_Str _ _ Hname), (ToString_Str _ _ Hdescr), Hd, Ho.
  destruct (Js.lookupField "type" fields); try discriminate.
  reflexivity.
Qed.

Lemma mapM_row_decodeProperty (stack : nat) (props : list Js.value) :
  forallb Js.validProperty props = true ->
  mapM (Js.row stack) props
  = Js.Normal (map renderRow (map decodeProperty props)).
Proof.
  induction props as [|prop props IH]; [reflexivity|].
  simpl. intros [Hprop Hprops]%andb_true_iff.
  rewrite (row_decodeProperty _ _ Hprop). simpl. by rewrite (IH Hprops).
Qed.

Lemma block_decodeComponent (stack : nat) (component : Js.value) :
  Js.validComponent component = true ->
  Js.block stack component
  = Js.Normal (renderBlock (decodeComponent component)).
Proof.
  destruct component as [| | | | |?|fields]; try discriminate.
  unfold Js.validComponent.
  intros [[[[Hname Hdescr]%andb_true_iff Himport]%andb_true_iff
            Hexample]%andb_true_iff Hprops]%andb_true_iff.
  unfold Js.block, decodeComponent. simpl.
  rewrite (ToString_Str _ _ Hname), (ToString_Str _ _ Hdescr),
    (ToString_Str _ _ Himport), (ToString_Str _ _ Hexample). simpl.
  destruct (Js.lookupField "props" fields) as [| | | | |props|];
    try discriminate.
  simpl. rewrite (mapM_row_decodeProperty _ _ Hprops). simpl.
  unfold renderBlock, blockHead, blockTail, tableRows. simpl.
  f_equal. string_norm.
Qed.

Lemma forEach_decodeComponent (stack : nat) (components : list Js.value)
    (mdxContent : string) :
  forallb Js.validComponent components = true ->
  fold_left
    (fun acc component =>
       content ← acc;
       (fun mdxContent component =>
          rendered ← Js.block stack component;
          mret (mdxContent +:+ rendered))
         content component)
    components (Js.Normal mdxContent)
  = Js.Normal
      (fold_left (fun mdxContent component => mdxContent +:+ renderBlock component)
                 (map decodeComponent components) mdxContent).
Proof.
  revert mdxContent.
  induction components as [|component components IH]; intros mdxContent;
    [reflexivity|].
  simpl. intros [Hcomponent Hcomponents]%andb_true_iff.
  rewrite (block_decodeComponent _ _ Hcomponent). simpl. by apply IH.
Qed.

Lemma generate_decodeCatalog (stack : nat) (data : Js.value) :
  Js.validCatalog data = true ->
  Js.generate stack data = Js.Normal (render (decodeCatalog data)).
Proof.
  destruct data as [| | | | |?|fields]; try discriminate.
  unfold Js.validCatalog, Js.generate, decodeCatalog, render. simpl.
  destruct (Js.lookupField "components" fields); try discriminate.
  apply forEach_decodeComponent.
Qed.

(** X10. The renderer on the data model accounts for every JSON catalog
    of the documented shape, also one whose defaults and options are
    numbers or booleans: the script renders it as the renderer renders the
    catalog of records it stands for, each literal by the text the
    language writes for it, a falsy default counting as absent. Encoding a
    catalog and reading it back does not change its document. *)
Theorem generate_is_render_of_decoded :
  (forall (stack : nat) (data : Js.value),
      Js.validCatalog data = true ->
      Js.generate stack data = Js.Normal (render (decodeCatalog data)))
  /\ (forall catalog : Catalog,
         render (decodeCatalog (Js.encodeCatalog catalog)) = render catalog).
Proof.
  split; [exact generate_decodeCatalog|].
  intros catalog.
  pose proof (generate_decodeCatalog 0 _ (validCatalog_encodeCatalog catalog))
    as H.
  rewrite generate_encodeCatalog in H. by injection H.
Qed.

Lemma generate_is_render_of_decoded_witness :
  Js.generate 0 sliderCatalog = Js.Normal (render (decodeCatalog sliderCatalog))
  /\ map (fun component => map renderRow (component_props component))
         (decodeCatalog sliderCatalog)
     = [[ "| `maxValue` | `number` | `100` | `0.5`, `100`, `1e+21` | The greatest value. |";
          "| `isDisabled` | `boolean` |  |  | Whether it is disabled. |" ]].
Proof.
  split.
  - apply (proj1 generate_is_render_of_decoded 0 sliderCatalog). reflexivity.
  - reflexivity.
Defined.

(** ** The loop as a map *)

Lemma forEach_is_mapM (stack : nat) (components : list Js.value)
    (mdxContent : string) :
  fold_left
    (fun acc component =>
       content ← acc;
       (fun mdxContent component =>
          rendered ← Js.block stack component;
          mret (mdxContent +:+ rendered))
         content component)
    components (Js.Normal mdxContent)
  = (blocks ← mapM (Js.block stack) components;
     mret (mdxContent +:+ join "" blocks)).
Proof.
  revert mdxContent.
  induction components as [|component components IH]; intros mdxContent.
  - simpl. by rewrite append_nil_r.
  - simpl. destruct (Js.block stack component) as [rendered|e]; simpl.
    + rewrite IH.
      destruct (mapM (Js.block stack) components) as [blocks|e]; simpl;
        [|reflexivity].
      change (match blocks with
              | [] => rendered
              | _ :: _ => rendered +:+ join "" blocks
              end) with (join "" (rendered :: blocks)).
      by rewrite join_empty_cons, append_assoc.
    + apply forEach_thrown.
Qed.

(** X11. The loop that appends to [mdxContent] is a map followed by a
    concatenation, for every array of components and also when a block
    throws: the document is the preamble and then the blocks of the
    components in their order, and the error, if there is one, is that of
    the first component that cannot be rendered. So a document always
    begins with the preamble. *)
Theorem generate_is_map_then_concat :
  forall (stack : nat) (data : Js.value) (components : list Js.value),
    Js.GetV data "components" = Js.Normal (Js.Arr components) ->
    Js.generate stack data
    = (blocks ← mapM (Js.block stack) components;
       mret (preamble +:+ join "" blocks))
    /\ (forall mdxContent : string,
           Js.generate stack data = Js.Normal mdxContent ->
           exists blocks : list string,
             mapM (Js.block stack) components = Js.Normal blocks
             /\ length blocks = length components
             /\ mdxContent = preamble +:+ join "" blocks).
Proof.
  intros stack data components Hcomponents.
  assert (Hgen : Js.generate stack data
                 = (blocks ← mapM (Js.block stack) components;
                    mret (preamble +:+ join "" blocks))).
  { unfold Js.generate. rewrite Hcomponents. simpl. apply forEach_is_mapM. }
  split; [exact Hgen|].
  intros mdxContent. rewrite Hgen.
  destruct (mapM (Js.block stack) components) as [blocks|e] eqn:Hblocks;
    simpl; [|discriminate].
  intros [= <-]. exists blocks. split; [reflexivity | split; [|reflexivity]].
  clear Hgen Hcomponents. revert blocks Hblocks.
  induction components as [|component components IH]; intros blocks.
  - by intros [= <-].
  - simpl. destruct (Js.block stack component); simpl; [|discriminate].
    destruct (mapM (Js.block stack) components) as [rest|]; simpl;
      [|discriminate].
    intros [= <-]. simpl. f_equal. by apply IH.
Qed.

Lemma generate_is_map_then_concat_witness :
  exists blocks : list string,
    mapM (Js.block 0) (map Js.encodeComponent [badge; spacer])
    = Js.Normal blocks
    /\ length blocks = 2
    /\ render [badge; spacer] = preamble +:+ join "" blocks.
Proof.
  destruct (generate_is_map_then_concat 0
              (Js.encodeCatalog [badge; spacer])
              (map Js.encodeComponent [badge; spacer]) eq_refl)
    as [_ Hblocks].
  destruct (Hblocks (render [badge; spacer])) as (blocks & Hmap & Hlen & Hdoc).
  - vm_compute. reflexivity.
  - exists blocks. split; [exact Hmap | split; [exact Hlen | exact Hdoc]].
Defined.
